(** * NestJS reservation microservices: repository and delegated authentication

    A shallow embedding of
    - [libs/common/src/database/abstract.repository.ts] (AbstractRepository)
      and [abstract.schema.ts] (AbstractDocument),
    - [apps/auth/src/users/users.controller.ts] (UsersService) and
      [apps/auth/src/users/models/user.schema.ts] (UserSchema),
    - [apps/auth/src/strategies/local.strategy.ts], [jwt.strategy.ts],
      [apps/auth/src/auth.service.ts], [auth.controller.ts],
    - [libs/common/src/auth/jwt-auth.guard.ts] (the delegating guard),
    together with small executable models of the libraries they call
    (JavaScript values, rxjs observables, the Mongoose model and its
    schemas, bcrypt, JWT). *)

From Stdlib Require Import String List ZArith NArith Bool Lia HexString
  DecimalString.
Import ListNotations.
Local Open Scope string_scope.

Set Warnings "-register-all".

(* ===================================================================== *)
(** ** Exceptions *)
(* ===================================================================== *)

(** The exception classes the sources construct ([@nestjs/common]), and
    [JsError] for everything thrown by the runtime or by a library
    (TypeError, MongoNetworkError, CastError, ...), carrying its name. *)
Inductive Exception : Type :=
| NotFoundException (message : string)
| UnauthorizedException (objectOrError : string + Exception)
| UnprocessableEntityException (message : string)
| ForbiddenException (message : string)
| JsError (name message : string).

(* ===================================================================== *)
(** ** JavaScript values *)
(* ===================================================================== *)

Module Js.

Inductive value : Type :=
| VUndefined
| VNull
| VBool (b : bool)
| VNum (z : Z)
| VStr (s : string)
| VOid (n : N)                               (* a bson ObjectId *)
| VObj (fields : list (string * value)).

(** A plain object: its own properties in insertion order. *)
Definition object : Type := list (string * value).

(** ToBoolean. *)
Definition truthy (v : value) : bool :=
  match v with
  | VUndefined | VNull => false
  | VBool b => b
  | VNum z => negb (z =? 0)%Z
  | VStr s => negb (s =? "")
  | VOid _ | VObj _ => true
  end.

(** [a || b], both operands already evaluated. *)
Definition or (a b : value) : value := if truthy a then a else b.

(** [o.k] on an object: [undefined] when [k] is not a property. *)
Fixpoint lookup (k : string) (o : object) : value :=
  match o with
  | [] => VUndefined
  | (k', v) :: rest => if k' =? k then v else lookup k rest
  end.

(** [v.k] on a value that is not nullish; primitives have no such
    property. *)
Definition member (v : value) (k : string) : value :=
  match v with
  | VObj o => lookup k o
  | _ => VUndefined
  end.

(** [v?.k] *)
Definition opt_member (v : value) (k : string) : value :=
  match v with
  | VUndefined | VNull => VUndefined
  | _ => member v k
  end.

(** [v.k] in general: reading a property of [undefined] or [null]
    throws. *)
Definition get (v : value) (k : string) : Exception + value :=
  match v with
  | VUndefined | VNull =>
      inl (JsError "TypeError" "Cannot read properties of undefined")
  | _ => inr (member v k)
  end.

(** [o.k = v]; also [{...o, k: v}]: an existing property keeps its
    place, a new one goes last. *)
Fixpoint assign (k : string) (v : value) (o : object) : object :=
  match o with
  | [] => [(k, v)]
  | (k', v') :: rest =>
      if k' =? k then (k', v) :: rest else (k', v') :: assign k v rest
  end.

(** Strict structural equality of values, as the document store
    compares a filter value with a stored field. *)
Fixpoint value_eqb (a b : value) : bool :=
  match a, b with
  | VUndefined, VUndefined => true
  | VNull, VNull => true
  | VBool x, VBool y => Bool.eqb x y
  | VNum x, VNum y => (x =? y)%Z
  | VStr x, VStr y => (x =? y)
  | VOid x, VOid y => (x =? y)%N
  | VObj xs, VObj ys =>
      (fix fields_eqb (xs ys : list (string * value)) : bool :=
         match xs, ys with
         | [], [] => true
         | (k, v) :: xs', (k', v') :: ys' =>
             (k =? k') && value_eqb v v' && fields_eqb xs' ys'
         | _, _ => false
         end) xs ys
  | _, _ => false
  end.

End Js.

(* ===================================================================== *)
(** ** rxjs observables *)
(* ===================================================================== *)

(** A finite observable is the sequence of notifications a subscriber
    receives: values, then completion or an error.  Operators with side
    effects ([tap]) thread the state they act on. *)
Module Rx.

Inductive Observable (A : Type) : Type :=
| Next (a : A) (rest : Observable A)
| Complete
| Error (err : Js.value).
Arguments Next {A} a rest.
Arguments Complete {A}.
Arguments Error {A} err.

(** [of(a)] *)
Definition of_ {A} (a : A) : Observable A := Next a Complete.

Fixpoint map {A B} (f : A -> B) (o : Observable A) : Observable B :=
  match o with
  | Next a rest => Next (f a) (map f rest)
  | Complete => Complete
  | Error e => Error e
  end.

(** [tap(f)]: the notifications pass through unchanged and [f] runs on
    each value, in order. *)
Fixpoint tap {A S} (f : A -> S -> S) (o : Observable A) (s : S)
  : Observable A * S :=
  match o with
  | Next a rest =>
      let (rest', s') := tap f rest (f a s) in (Next a rest', s')
  | Complete => (Complete, s)
  | Error e => (Error e, s)
  end.

Fixpoint catchError {A} (selector : Js.value -> Observable A)
         (o : Observable A) : Observable A :=
  match o with
  | Next a rest => Next a (catchError selector rest)
  | Complete => Complete
  | Error e => selector e
  end.

(** What [lastValueFrom] settles to: the last value, an EmptyError when
    there was none, or the error of the observable. *)
Inductive Outcome (A : Type) : Type :=
| Last (a : A)
| Empty
| Failed (err : Js.value).
Arguments Last {A} a.
Arguments Empty {A}.
Arguments Failed {A} err.

(** [lastValueFrom], by which the framework turns a guard's observable
    into its decision; [last] is the value seen so far. *)
Fixpoint lastValueFrom {A} (o : Observable A) (last : option A)
  : Outcome A :=
  match o with
  | Next a rest => lastValueFrom rest (Some a)
  | Complete =>
      match last with
      | Some a => Last a
      | None => Empty
      end
  | Error err => Failed err
  end.

(** No error notification anywhere in the sequence. *)
Fixpoint succeeds {A} (o : Observable A) : bool :=
  match o with
  | Next _ rest => succeeds rest
  | Complete => true
  | Error _ => false
  end.

End Rx.

(* ===================================================================== *)
(** ** libs/common/src/auth/jwt-auth.guard.ts *)
(* ===================================================================== *)

Module JwtAuthGuard.

(** [ClientProxy]: what the remote side answers to a pattern and a
    payload. *)
Definition ClientProxy : Type :=
  string -> Js.value -> Rx.Observable Js.value.

(** The HTTP side of the execution context: the request object, and the
    messages handed to the transport so far (newest first). *)
Record ExecutionContext : Type := mkContext {
  request : Js.object;
  sent : list (string * Js.value)
}.

Definition getRequest (context : ExecutionContext) : Js.object :=
  request context.

(** [authClient.send(pattern, data)] *)
Definition send (authClient : ClientProxy) (pattern : string)
           (data : Js.value) (context : ExecutionContext)
  : Rx.Observable Js.value * ExecutionContext :=
  (authClient pattern data,
   mkContext (request context) ((pattern, data) :: sent context)).

(** [boolean | Promise<boolean> | Observable<boolean>] *)
Inductive Activation : Type :=
| Immediate (b : bool)
| Stream (o : Rx.Observable bool).

(** The three places a credential is looked for. *)
Definition cookieAuthentication (context : ExecutionContext) : Js.value :=
  Js.opt_member (Js.lookup "cookies" (getRequest context)) "Authentication".

Definition requestAuthentication (context : ExecutionContext) : Js.value :=
  Js.lookup "Authentication" (getRequest context).

Definition headerAuthentication (context : ExecutionContext) : Js.value :=
  Js.opt_member (Js.lookup "headers" (getRequest context)) "Authentication".

(** [const jwt = cookies?.Authentication || req?.Authentication
                 || headers?.Authentication] *)
Definition jwt (context : ExecutionContext) : Js.value :=
  Js.or (Js.or (cookieAuthentication context)
               (requestAuthentication context))
        (headerAuthentication context).

(** [getRequest().user = res] *)
Definition setUser (res : Js.value) (context : ExecutionContext)
  : ExecutionContext :=
  mkContext (Js.assign "user" res (request context)) (sent context).

Definition canActivate (authClient : ClientProxy)
           (context : ExecutionContext) : Activation * ExecutionContext :=
  let jwt := jwt context in
  if negb (Js.truthy jwt) then (Immediate false, context)
  else
    let (response, context1) :=
      send authClient "authenticate"
           (Js.VObj [("Authentication", jwt)]) context in
    let (tapped, context2) := Rx.tap setUser response context1 in
    (Stream (Rx.catchError (fun _ => Rx.of_ false)
               (Rx.map (fun _ => true) tapped)),
     context2).

(** The decision the framework takes from the guard's result. *)
Definition decision (a : Activation) : Rx.Outcome bool :=
  match a with
  | Immediate b => Rx.Last b
  | Stream o => Rx.lastValueFrom o None
  end.

End JwtAuthGuard.

(* ===================================================================== *)
(** ** Promises over a store *)
(* ===================================================================== *)

(** An [async] function is a state transformer that settles: it resolves
    with a value or rejects with an exception, and in both cases leaves
    the effects it had so far. *)
Module Async.

Inductive Settled (A : Type) : Type :=
| Resolved (a : A)
| Rejected (e : Exception).
Arguments Resolved {A} a.
Arguments Rejected {A} e.

Definition Promise (S A : Type) : Type := S -> Settled A * S.

Definition resolve {S A} (a : A) : Promise S A :=
  fun s => (Resolved a, s).

Definition throw {S A} (e : Exception) : Promise S A :=
  fun s => (Rejected e, s).

(** [const x = await p; k x] *)
Definition await {S A B} (p : Promise S A) (k : A -> Promise S B)
  : Promise S B :=
  fun s =>
    match p s with
    | (Resolved a, s') => k a s'
    | (Rejected e, s') => (Rejected e, s')
    end.

(** [try { return await body } catch (error) { handler error }] *)
Definition try_catch {S A} (body : Promise S A)
           (handler : Exception -> Promise S A) : Promise S A :=
  fun s =>
    match body s with
    | (Resolved a, s') => (Resolved a, s')
    | (Rejected e, s') => handler e s'
    end.

(** The outcome of [body] as a value, for a [try] block whose [catch]
    leaves the enclosing function. *)
Definition attempt {S A} (body : Promise S A) : Promise S (Exception + A) :=
  fun s =>
    match body s with
    | (Resolved a, s') => (Resolved (inr a), s')
    | (Rejected e, s') => (Resolved (inl e), s')
    end.

(** A synchronous computation that may throw. *)
Definition lift {S A} (r : Exception + A) : Promise S A :=
  match r with
  | inl e => throw e
  | inr a => resolve a
  end.

End Async.

Import Async.

Notation "'let*' x ':=' p 'in' k" :=
  (Async.await p (fun x => k))
  (at level 10, x pattern, p at level 100, k at level 200).

(* ===================================================================== *)
(** ** The Mongoose model (library) *)
(* ===================================================================== *)

(** An in-memory model of the part of [mongoose.Model] the repository
    calls: one collection of plain documents in natural order, the
    ObjectId generator, and the round trips to the server, any of which
    can fail.  Filters are objects of [field: value] equalities, the only
    form the services use; update documents are [{ $set: fields }].  A
    model has a schema: what is saved or set goes through its paths
    first, in strict mode. *)
Module Mongoose.

Record Collection : Type := mkCollection {
  docs : list Js.object;
  (** the next [new Types.ObjectId()] *)
  nextObjectId : N;
  (** what happens to the coming round trips, first first: [Some e] is
      a round trip that fails with [e]; past the end of the list every
      round trip goes through *)
  outages : list (option Exception)
}.

Definition FilterQuery : Type := Js.object.

(** [{ $set: fields }] *)
Record UpdateQuery : Type := mkUpdate { set_ : Js.object }.

(** [ObjectId.prototype.toHexString]; the digits only have to identify
    the id. *)
Definition toHexString (n : N) : string := HexString.of_N n.

(** Casting a string to an ObjectId, [None] where Mongoose raises a
    CastError. *)
Definition castObjectId (s : string) : option N :=
  let n := HexString.to_N s in
  if HexString.of_N n =? s then Some n else None.

(** A path of a schema: how a value given for it is cast ([None] where
    Mongoose raises a CastError), whether a value is required and which
    values then count as one, and the default for a document that gives
    none. *)
Record SchemaPath : Type := mkPath {
  pathName : string;
  castValue : Js.value -> option Js.value;
  required : bool;
  checkRequired : Js.value -> bool;
  defaultValue : option Js.value
}.

(** The paths a document class declares with [@Prop]. *)
Definition Schema : Type := list SchemaPath.

(** [type: String]: numbers, booleans and ObjectIds are turned into
    strings, a populated document stands for its string [_id], and other
    objects are not cast. *)
Definition castString (v : Js.value) : option Js.value :=
  match v with
  | Js.VStr s => Some (Js.VStr s)
  | Js.VNum z => Some (Js.VStr (NilZero.string_of_int (Z.to_int z)))
  | Js.VBool b => Some (Js.VStr (if b then "true" else "false"))
  | Js.VOid n => Some (Js.VStr (toHexString n))
  | Js.VObj o =>
      match Js.lookup "_id" o with
      | Js.VStr s => if s =? "" then None else Some (Js.VStr s)
      | _ => None
      end
  | Js.VUndefined | Js.VNull => Some v
  end.

(** [required] on a string path refuses the empty string. *)
Definition stringPath (name : string) (isRequired : bool) : SchemaPath :=
  mkPath name castString isRequired
         (fun v => match v with
                   | Js.VStr s => negb (s =? "")
                   | _ => false
                   end)
         None.

(** [type: SchemaTypes.ObjectId]: an ObjectId, the hex string of one, or
    a document standing for its [_id]. *)
Definition castToObjectId (v : Js.value) : option Js.value :=
  match v with
  | Js.VOid n => Some (Js.VOid n)
  | Js.VStr s => option_map Js.VOid (castObjectId s)
  | Js.VObj o =>
      match Js.lookup "_id" o with
      | Js.VOid n => Some (Js.VOid n)
      | Js.VStr s =>
          if s =? "" then None else option_map Js.VOid (castObjectId s)
      | _ => None
      end
  | Js.VUndefined | Js.VNull => Some v
  | _ => None
  end.

Definition objectIdPath (name : string) : SchemaPath :=
  mkPath name castToObjectId false
         (fun v => match v with
                   | Js.VOid _ => true
                   | _ => false
                   end)
         None.

(** [abstract.schema.ts]: the one path every document class inherits. *)
Definition AbstractDocument : Schema := [objectIdPath "_id"].

(** The path a document class has under a name, inherited or its own. *)
Definition pathOf (schema : Schema) (k : string) : option SchemaPath :=
  List.find (fun p => pathName p =? k) (AbstractDocument ++ schema).

(** What casting makes of one field given to the model: nothing when the
    schema has no such path (strict mode) or the value is [undefined],
    [null] as it is, any other value as the path casts it; [None] is a
    CastError. *)
Definition castField (schema : Schema) (k : string) (v : Js.value)
  : option Js.object :=
  match pathOf schema k with
  | None => Some []
  | Some p =>
      match v with
      | Js.VUndefined => Some []
      | Js.VNull => Some [(k, Js.VNull)]
      | _ =>
          match castValue p v with
          | Some v' => Some [(k, v')]
          | None => None
          end
      end
  end.

Fixpoint castFields (schema : Schema) (fields : Js.object)
  : option Js.object :=
  match fields with
  | [] => Some []
  | (k, v) :: rest =>
      match castField schema k v, castFields schema rest with
      | Some kept, Some rest' => Some (kept ++ rest')%list
      | _, _ => None
      end
  end.

(** A path with a default gets it when the document gives no value. *)
Definition applyDefaults (schema : Schema) (doc : Js.object) : Js.object :=
  fold_left
    (fun d p =>
       match defaultValue p, Js.lookup (pathName p) d with
       | Some v, Js.VUndefined => (d ++ [(pathName p, v)])%list
       | _, _ => d
       end)
    (AbstractDocument ++ schema) doc.

(** The [required] validator of a path. *)
Definition filled (p : SchemaPath) (doc : Js.object) : bool :=
  match Js.lookup (pathName p) doc with
  | Js.VUndefined | Js.VNull => false
  | v => checkRequired p v
  end.

Definition valid (schema : Schema) (doc : Js.object) : bool :=
  forallb (fun p => negb (required p) || filled p doc)
          (AbstractDocument ++ schema).

(** [new model(doc)] and the validation that precedes a save: the
    document as it would be stored, or the ValidationError, which also
    reports the values that could not be cast. *)
Definition validated (schema : Schema) (doc : Js.object)
  : Exception + Js.object :=
  match castFields schema doc with
  | None => inl (JsError "ValidationError" "Validation failed")
  | Some cast =>
      let document := applyDefaults schema cast in
      if valid schema document then inr document
      else inl (JsError "ValidationError" "Validation failed")
  end.

(** The relation between the value given for a path and the value a
    validated document or a cast update holds for it. *)
Definition castTo (p : SchemaPath) (given held : Js.value) : Prop :=
  match given with
  | Js.VUndefined => True
  | Js.VNull => held = Js.VNull
  | _ => castValue p given = Some held
  end.

(** Query casting: a string given for [_id] becomes an ObjectId. *)
Fixpoint castFilter (filter : FilterQuery) : Exception + FilterQuery :=
  match filter with
  | [] => inr []
  | (k, v) :: rest =>
      match castFilter rest with
      | inl e => inl e
      | inr rest' =>
          match k =? "_id", v with
          | true, Js.VStr s =>
              match castObjectId s with
              | Some n => inr ((k, Js.VOid n) :: rest')
              | None =>
                  inl (JsError "CastError" "Cast to ObjectId failed")
              end
          | _, _ => inr ((k, v) :: rest')
          end
      end
  end.

(** A document matches when each field named by the filter has the
    value given for it. *)
Definition matches (filter : FilterQuery) (doc : Js.object) : bool :=
  forallb (fun kv => Js.value_eqb (snd kv) (Js.lookup (fst kv) doc)) filter.

(** What the server does with [$set: fields], once the model has cast
    the fields. *)
Definition setFields (fields : Js.object) (doc : Js.object) : Js.object :=
  fold_left (fun d kv => Js.assign (fst kv) (snd kv) d) fields doc.

(** A round trip to the server. *)
Definition exchange {A} (op : Collection -> Settled A * Collection)
  : Promise Collection A :=
  fun c =>
    match outages c with
    | Some e :: later =>
        (Rejected e, mkCollection (docs c) (nextObjectId c) later)
    | None :: later => op (mkCollection (docs c) (nextObjectId c) later)
    | [] => op c
    end.

Definition casting {A} (filter : FilterQuery)
           (query : FilterQuery -> Promise Collection A)
  : Promise Collection A :=
  match castFilter filter with
  | inl e => throw e
  | inr filter' => query filter'
  end.

(** [new Types.ObjectId()] *)
Definition newObjectId : Promise Collection N :=
  fun c =>
    (Resolved (nextObjectId c),
     mkCollection (docs c) (N.succ (nextObjectId c)) (outages c)).

(** [new model(doc).save()] followed by [toJSON()].  The document is
    cast and validated first, and a document the schema refuses is a
    ValidationError without a round trip.  Otherwise the document goes
    last, as cast; the server refuses a second document with the same
    [_id].  The repository always gives [_id], so that the default
    Mongoose has for it does not come into play. *)
Definition save (schema : Schema) (doc : Js.object)
  : Promise Collection Js.object :=
  match validated schema doc with
  | inl e => throw e
  | inr document =>
      exchange (fun c =>
        if existsb (fun d => Js.value_eqb (Js.lookup "_id" document)
                                          (Js.lookup "_id" d)) (docs c)
        then (Rejected (JsError "MongoServerError" "E11000 duplicate key"),
              c)
        else (Resolved document,
              mkCollection (docs c ++ [document]) (nextObjectId c)
                           (outages c)))
  end.

(** [model.findOne(filter).lean(true)]: the first match, or [null]. *)
Definition findOne (filter : FilterQuery)
  : Promise Collection (option Js.object) :=
  casting filter (fun f =>
    exchange (fun c => (Resolved (List.find (matches f) (docs c)), c))).

(** [model.find(filter).lean(true)] *)
Definition find (filter : FilterQuery)
  : Promise Collection (list Js.object) :=
  casting filter (fun f =>
    exchange (fun c => (Resolved (List.filter (matches f) (docs c)), c))).

(** The documents before the first match, the match, and those after. *)
Fixpoint splitFirst (p : Js.object -> bool) (ds : list Js.object)
  : option (list Js.object * Js.object * list Js.object) :=
  match ds with
  | [] => None
  | d :: rest =>
      if p d then Some ([], d, rest)
      else match splitFirst p rest with
           | Some (before, m, after) => Some (d :: before, m, after)
           | None => None
           end
  end.

(** [model.findOneAndUpdate(filter, update, { new: true }).lean(true)].
    The update is cast through the schema before anything is sent: fields
    the schema does not have are dropped, and a value that cannot be cast
    is a CastError; validators do not run.  Then the first match is
    updated in place and returned as updated; the server refuses an
    update that would change [_id]. *)
Definition findOneAndUpdate (schema : Schema) (filter : FilterQuery)
           (update : UpdateQuery) : Promise Collection (option Js.object) :=
  casting filter (fun f =>
    match castFields schema (set_ update) with
    | None => throw (JsError "CastError" "Cast failed for the update")
    | Some fields =>
        exchange (fun c =>
          match splitFirst (matches f) (docs c) with
          | None => (Resolved None, c)
          | Some (before, d, after) =>
              let d' := setFields fields d in
              if Js.value_eqb (Js.lookup "_id" d') (Js.lookup "_id" d)
              then (Resolved (Some d'),
                    mkCollection (before ++ d' :: after)
                                 (nextObjectId c) (outages c))
              else (Rejected (JsError "MongoServerError"
                                "the immutable field _id would be modified"),
                    c)
          end)
    end).

(** [model.findOneAndDelete(filter).lean(true)]: the first match is
    removed and returned. *)
Definition findOneAndDelete (filter : FilterQuery)
  : Promise Collection (option Js.object) :=
  casting filter (fun f =>
    exchange (fun c =>
      match splitFirst (matches f) (docs c) with
      | None => (Resolved None, c)
      | Some (before, d, after) =>
          (Resolved (Some d),
           mkCollection (before ++ after) (nextObjectId c) (outages c))
      end)).

(** Every stored document carries an ObjectId the generator has already
    handed out. *)
Definition issued (next : N) (doc : Js.object) : bool :=
  match Js.lookup "_id" doc with
  | Js.VOid n => (n <? next)%N
  | _ => false
  end.

Definition wellFormed (c : Collection) : bool :=
  forallb (issued (nextObjectId c)) (docs c).

(** The stored documents a filter selects, [None] for a filter that
    does not cast. *)
Definition selected (filter : FilterQuery) (c : Collection)
  : option (list Js.object) :=
  match castFilter filter with
  | inl _ => None
  | inr f => Some (List.filter (matches f) (docs c))
  end.

(** No round trip is going to fail. *)
Definition reachable (c : Collection) : Prop := outages c = [].

Definition empty : Collection := mkCollection [] 0 [].

End Mongoose.

(* ===================================================================== *)
(** ** libs/common/src/database/abstract.repository.ts *)
(* ===================================================================== *)

(** [logger.warn] only writes to the process log and is left out.  The
    [model] a repository is constructed with is given by its schema. *)
Module AbstractRepository.

Import Mongoose.

Definition create (model : Schema) (document : Js.object)
  : Promise Collection Js.object :=
  let* _id := newObjectId in
  let createdDocument := Js.assign "_id" (Js.VOid _id) document in
  let* savedDocument := save model createdDocument in
  resolve savedDocument.

Definition findOne (filterQuery : FilterQuery)
  : Promise Collection Js.object :=
  let* document := Mongoose.findOne filterQuery in
  match document with
  | None => throw (NotFoundException "The document was not found")
  | Some document => resolve document
  end.

Definition findOneAndUpdate (model : Schema) (filterQuery : FilterQuery)
           (update : UpdateQuery) : Promise Collection Js.object :=
  let* document := Mongoose.findOneAndUpdate model filterQuery update in
  match document with
  | None => throw (NotFoundException "The document was not found")
  | Some document => resolve document
  end.

Definition find (filterQuery : FilterQuery)
  : Promise Collection (list Js.object) :=
  let* documents := Mongoose.find filterQuery in
  resolve documents.

Definition findOneAndDelete (filterQuery : FilterQuery)
  : Promise Collection Js.object :=
  let* document := Mongoose.findOneAndDelete filterQuery in
  match document with
  | None => throw (NotFoundException "The document was not found")
  | Some document => resolve document
  end.

End AbstractRepository.

(* ===================================================================== *)
(** ** Libraries of the auth service: bcryptjs and JWT *)
(* ===================================================================== *)

(** [bcrypt.hash(data, rounds)] and [bcrypt.compare(data, hash)]. *)
Record Bcrypt : Type := mkBcrypt {
  hash : string -> nat -> string;
  compare : string -> string -> bool
}.

(** [interface Tokenpayload { userId: string }] *)
Record Tokenpayload : Type := mkTokenpayload { userId : string }.

(** [JwtService] as configured by the auth module, together with the
    check passport-jwt makes with the same secret: [verify] is [None] for
    a token that is malformed, expired or signed with another secret. *)
Record JwtService : Type := mkJwtService {
  sign : Tokenpayload -> string;
  verify : string -> option Tokenpayload
}.

(* ===================================================================== *)
(** ** UsersService (apps/auth/src/users/users.controller.ts) *)
(* ===================================================================== *)

Record CreateUserDto : Type := mkCreateUserDto {
  email : string;
  password : string
}.

Record GetUserDto : Type := mkGetUserDto { _id : string }.

(** [apps/auth/src/users/models/user.schema.ts]: the class extends
    AbstractDocument with two required strings. *)
Definition UserSchema : Mongoose.Schema :=
  [Mongoose.stringPath "email" true; Mongoose.stringPath "password" true].

Module UsersService.

Import Mongoose.

Section WithBcrypt.

Variable bcrypt : Bcrypt.

(** [bcrypt.compare(password, user.password)]: bcryptjs rejects when
    the stored hash is not a string. *)
Definition bcrypt_compare (password : string) (stored : Js.value)
  : Promise Collection bool :=
  match stored with
  | Js.VStr h => resolve (compare bcrypt password h)
  | _ => throw (JsError "Error" "Illegal arguments")
  end.

Definition validateCreateUserDto (createUser : CreateUserDto)
  : Promise Collection unit :=
  let* outcome :=
    attempt (AbstractRepository.findOne
               [("email", Js.VStr (email createUser))]) in
  match outcome with
  | inl error => resolve tt
  | inr _ => throw (UnprocessableEntityException "Email already exist!")
  end.

Definition register (createUser : CreateUserDto)
  : Promise Collection Js.object :=
  let* _ := validateCreateUserDto createUser in
  AbstractRepository.create UserSchema
    [("email", Js.VStr (email createUser));
     ("password", Js.VStr (hash bcrypt (password createUser) 10))].

Definition verifyUser (email password : string)
  : Promise Collection Js.object :=
  let* user := AbstractRepository.findOne [("email", Js.VStr email)] in
  let* passwordIsValid :=
    bcrypt_compare password (Js.lookup "password" user) in
  if negb passwordIsValid
  then throw (UnauthorizedException (inl "Credentials are not valid."))
  else resolve user.

Definition getUser (getUserDto : GetUserDto)
  : Promise Collection Js.object :=
  AbstractRepository.findOne [("_id", Js.VStr (_id getUserDto))].

End WithBcrypt.

End UsersService.

(* ===================================================================== *)
(** ** apps/auth/src/strategies/local.strategy.ts *)
(* ===================================================================== *)

Module LocalStrategy.

Definition validate (bcrypt : Bcrypt) (email password : string)
  : Promise Mongoose.Collection Js.object :=
  try_catch (UsersService.verifyUser bcrypt email password)
            (fun error => throw (UnauthorizedException (inr error))).

End LocalStrategy.

(* ===================================================================== *)
(** ** apps/auth/src/auth.service.ts *)
(* ===================================================================== *)

Module AuthService.

(** A cookie set on the response.  The [expires] attribute is left out:
    nothing here depends on it. *)
Record Cookie : Type := mkCookie {
  cookieName : string;
  cookieValue : string;
  httpOnly : bool
}.

Definition Response : Type := list Cookie.

(** [user._id.toHexString()] *)
Definition toHexString (v : Js.value) : Exception + string :=
  match v with
  | Js.VOid n => inr (Mongoose.toHexString n)
  | _ => inl (JsError "TypeError" "toHexString is not a function")
  end.

Definition login (jwtService : JwtService) (user : Js.object)
  : Promise Response unit :=
  let* hex := lift (toHexString (Js.lookup "_id" user)) in
  let tokenPayload := mkTokenpayload hex in
  let token := sign jwtService tokenPayload in
  fun response =>
    (Resolved tt, mkCookie "Authentication" token true :: response).

End AuthService.

(* ===================================================================== *)
(** ** apps/auth/src/strategies/jwt.strategy.ts *)
(* ===================================================================== *)

Module JwtStrategy.

(** [request?.cookies?.Authentication || request?.Authentication ||
     request?.headers.Authentication] *)
Definition jwtFromRequest (request : Js.value) : Exception + Js.value :=
  let fromCookies :=
    Js.opt_member (Js.opt_member request "cookies") "Authentication" in
  if Js.truthy fromCookies then inr fromCookies
  else
    let fromRequest := Js.opt_member request "Authentication" in
    if Js.truthy fromRequest then inr fromRequest
    else
      match request with
      | Js.VUndefined | Js.VNull => inr Js.VUndefined
      | _ => Js.get (Js.member request "headers") "Authentication"
      end.

Definition validate (payload : Tokenpayload)
  : Promise Mongoose.Collection Js.object :=
  UsersService.getUser (mkGetUserDto (userId payload)).

End JwtStrategy.

(* ===================================================================== *)
(** ** apps/auth/src/guards/jwt-auth.guard.ts and auth.controller.ts *)
(* ===================================================================== *)

Module AuthController.

Import Mongoose.

Section WithLibraries.

Variable jwtService : JwtService.

(** [AuthGuard('jwt').canActivate] of @nestjs/passport (library): the
    token is taken from the request with the strategy's extractor and
    verified; a missing or refused token is an UnauthorizedException;
    otherwise the strategy's [validate] runs, its exception is
    rethrown as it is, and its result becomes [request.user]. *)
Definition super_canActivate (request : Js.object)
  : Promise Collection (bool * Js.object) :=
  let* token := lift (JwtStrategy.jwtFromRequest (Js.VObj request)) in
  match token with
  | Js.VStr t =>
      match verify jwtService t with
      | Some payload =>
          let* user := JwtStrategy.validate payload in
          resolve (true, Js.assign "user" (Js.VObj user) request)
      | None => throw (UnauthorizedException (inl "Unauthorized"))
      end
  | _ => throw (UnauthorizedException (inl "Unauthorized"))
  end.

(** [JwtAuthGuard.canActivate] of the auth service. *)
Definition canActivate (request : Js.object)
  : Promise Collection (bool * Js.object) :=
  let* activation := super_canActivate request in
  let (canActivate, request') := activation in
  if negb canActivate then resolve (false, request')
  else resolve (true, request').

(** The controller method: [return data.user]. *)
Definition authenticate (data : Js.object) : Js.value :=
  Js.lookup "user" data.

(** The message handler for the pattern ['authenticate'] as the
    framework runs it: guard first, and a guard that answers false is
    a ForbiddenException. *)
Definition handleAuthenticate (data : Js.object)
  : Promise Collection Js.value :=
  let* activation := canActivate data in
  let (admitted, data') := activation in
  if admitted then resolve (authenticate data')
  else throw (ForbiddenException "Forbidden resource").

End WithLibraries.

End AuthController.

(* ===================================================================== *)
(** ** Sample data *)
(* ===================================================================== *)

(** Concrete stores, requests and stand-ins for the two libraries, on
    which the statements below are run. *)
Module Samples.

Definition sampleUsers : Mongoose.Collection :=
  Mongoose.mkCollection
    [[("email", Js.VStr "a@x.com"); ("password", Js.VStr "$2a$10$pw123!");
      ("_id", Js.VOid 0)]]
    1 [].

(** The same store while the server cannot be reached for one round
    trip. *)
Definition sampleUsersOffline : Mongoose.Collection :=
  Mongoose.mkCollection (Mongoose.docs sampleUsers) 1
    [Some (JsError "MongoNetworkError" "connection timed out")].

Definition sampleBcrypt : Bcrypt :=
  mkBcrypt (fun data _ => "$2a$10$" ++ data)
           (fun data h => h =? "$2a$10$" ++ data).

Definition sampleJwt : JwtService :=
  mkJwtService
    (fun payload => "jwt." ++ userId payload)
    (fun token =>
       if prefix "jwt." token
       then Some (mkTokenpayload
                    (substring 4 (String.length token - 4) token))
       else None).

Definition sampleCreateUser : CreateUserDto :=
  mkCreateUserDto "a@x.com" "pw123!".

(** A request carrying a different credential in each of the three
    places. *)
Definition requestWithAll : Js.object :=
  [("cookies", Js.VObj [("Authentication", Js.VStr "from-cookie")]);
   ("Authentication", Js.VStr "from-request");
   ("headers", Js.VObj [("Authentication", Js.VStr "from-header")])].

Definition requestWithHeader : Js.object :=
  [("cookies", Js.VObj []);
   ("headers", Js.VObj [("Authentication", Js.VStr "from-header")])].

Definition requestWithNone : Js.object :=
  [("cookies", Js.VObj [("Authentication", Js.VStr "")]);
   ("headers", Js.VObj [("host", Js.VStr "localhost")])].

(** An authority that accepts one token and answers with [identity]. *)
Definition sampleAuthority (identity : Js.value) : JwtAuthGuard.ClientProxy :=
  fun pattern data =>
    match pattern =? "authenticate", Js.member data "Authentication" with
    | true, Js.VStr "from-header" => Rx.of_ identity
    | _, _ => Rx.Error (Js.VStr "Unauthorized")
    end.

End Samples.

(* ===================================================================== *)
(** ** apps/reservations/src/reservations.service.ts *)
(* ===================================================================== *)

(** The DTOs are taken as the objects the caller passes; [now] is what
    [new Date()] evaluates to, and [model] is the schema of the model the
    reservations repository is constructed with. *)
Module ReservationsService.

Import Mongoose.

Definition create (model : Schema) (now : Js.value)
           (createReservationDto : Js.object) (userId : Js.value)
  : Promise Collection Js.object :=
  AbstractRepository.create model
    (Js.assign "userId" userId
       (Js.assign "timestamp" now createReservationDto)).

Definition findAll : Promise Collection (list Js.object) :=
  AbstractRepository.find [].

Definition findOne (_id : string) : Promise Collection Js.object :=
  AbstractRepository.findOne [("_id", Js.VStr _id)].

Definition update (model : Schema) (_id : string)
           (updateReservationDto : Js.object)
  : Promise Collection Js.object :=
  AbstractRepository.findOneAndUpdate model
    [("_id", Js.VStr _id)] (mkUpdate updateReservationDto).

Definition remove (_id : string) : Promise Collection Js.object :=
  AbstractRepository.findOneAndDelete [("_id", Js.VStr _id)].

End ReservationsService.

(* ===================================================================== *)
(** ** libs/common/src/decorators/current-user.decorator.ts *)
(* ===================================================================== *)

Module CurrentUser.

Definition getCurrentUserByContext (ctx : JwtAuthGuard.ExecutionContext)
  : Js.value :=
  Js.lookup "user" (JwtAuthGuard.getRequest ctx).

End CurrentUser.

(* ===================================================================== *)
(** ** apps/reservations/src/reservations.controller.ts *)
(* ===================================================================== *)

Module ReservationsController.

Import Mongoose.

(** [@UseGuards(JwtAuthGuard)] as the framework runs a route: the handler
    runs when the guard's decision is [true]; [false] is a
    ForbiddenException; an observable that ends without a value, or with
    an error, rejects the request with that. *)
Definition UseGuards {A} (authClient : JwtAuthGuard.ClientProxy)
           (handler : JwtAuthGuard.ExecutionContext -> Promise Collection A)
  : Promise (JwtAuthGuard.ExecutionContext * Collection) A :=
  fun state =>
    let (context, c) := state in
    let (activation, context') :=
      JwtAuthGuard.canActivate authClient context in
    match JwtAuthGuard.decision activation with
    | Rx.Last true =>
        let (settled, c') := handler context' c in (settled, (context', c'))
    | Rx.Last false =>
        (Rejected (ForbiddenException "Forbidden resource"), (context', c))
    | Rx.Empty =>
        (Rejected (JsError "EmptyError" "no elements in sequence"),
         (context', c))
    | Rx.Failed _ =>
        (Rejected (JsError "Error" "guard failed"), (context', c))
    end.

(** [create(@Body() createReservationDto, @CurrentUser() user)] *)
Definition create (authClient : JwtAuthGuard.ClientProxy) (model : Schema)
           (now : Js.value) (createReservationDto : Js.object)
  : Promise (JwtAuthGuard.ExecutionContext * Collection) Js.object :=
  UseGuards authClient (fun context =>
    let user := CurrentUser.getCurrentUserByContext context in
    let* userId := lift (Js.get user "_id") in
    ReservationsService.create model now createReservationDto userId).

Definition findAll (authClient : JwtAuthGuard.ClientProxy)
  : Promise (JwtAuthGuard.ExecutionContext * Collection) (list Js.object) :=
  UseGuards authClient (fun _ => ReservationsService.findAll).

Definition findOne (authClient : JwtAuthGuard.ClientProxy) (id : string)
  : Promise (JwtAuthGuard.ExecutionContext * Collection) Js.object :=
  UseGuards authClient (fun _ => ReservationsService.findOne id).

Definition update (authClient : JwtAuthGuard.ClientProxy) (model : Schema)
           (id : string) (updateReservationDto : Js.object)
  : Promise (JwtAuthGuard.ExecutionContext * Collection) Js.object :=
  UseGuards authClient (fun _ =>
    ReservationsService.update model id updateReservationDto).

Definition remove (authClient : JwtAuthGuard.ClientProxy) (id : string)
  : Promise (JwtAuthGuard.ExecutionContext * Collection) Js.object :=
  UseGuards authClient (fun _ => ReservationsService.remove id).

End ReservationsController.

(* ===================================================================== *)
(** ** The login route of apps/auth/src/auth.controller.ts *)
(* ===================================================================== *)

Module AuthLogin.

Import Mongoose.

(** The response of the login request: the cookies set on it and the
    body sent, if any. *)
Record HttpResponse : Type := mkHttpResponse {
  cookies : AuthService.Response;
  body : option Js.value
}.

(** [LocalAuthGuard], that is [AuthGuard('local')] of @nestjs/passport
    with [usernameField: 'email'] (library): a request without an email
    or without a password is an UnauthorizedException and the strategy is
    not asked; otherwise [LocalStrategy.validate] decides and its result
    is the current user. *)
Definition LocalAuthGuard (bcrypt : Bcrypt) (email password : string)
  : Promise Collection Js.object :=
  if (email =? "") || (password =? "")
  then throw (UnauthorizedException (inl "Unauthorized"))
  else LocalStrategy.validate bcrypt email password.

(** [await this.authService.login(user, response); response.send(user)] *)
Definition login (jwtService : JwtService) (user : Js.object)
  : Promise HttpResponse unit :=
  fun response =>
    match AuthService.login jwtService user (cookies response) with
    | (Resolved _, cookies') =>
        (Resolved tt, mkHttpResponse cookies' (Some (Js.VObj user)))
    | (Rejected e, cookies') =>
        (Rejected e, mkHttpResponse cookies' (body response))
    end.

(** [POST /auth/login]: the guard, then the handler. *)
Definition postLogin (bcrypt : Bcrypt) (jwtService : JwtService)
           (email password : string)
  : Promise (Collection * HttpResponse) unit :=
  fun state =>
    let (c, response) := state in
    match LocalAuthGuard bcrypt email password c with
    | (Resolved user, c') =>
        let (settled, response') := login jwtService user response in
        (settled, (c', response'))
    | (Rejected e, c') => (Rejected e, (c', response))
    end.

End AuthLogin.

(* ===================================================================== *)
(** ** reservations.service.ts once payments are charged first *)
(* ===================================================================== *)

Module ReservationsServiceWithPayments.

Import Mongoose.

(** [pipe(map(async (a) => f a))] as a subscriber sees it: each value
    starts [f], whose effects on the store take place in the order of the
    values, and what is emitted is the promise, here as it settles. *)
Fixpoint mapAsync {A B S} (f : A -> Promise S B) (o : Rx.Observable A)
         (s : S) : Rx.Observable (Settled B) * S :=
  match o with
  | Rx.Next a rest =>
      let (settled, s1) := f a s in
      let (rest', s2) := mapAsync f rest s1 in
      (Rx.Next settled rest', s2)
  | Rx.Complete => (Rx.Complete, s)
  | Rx.Error e => (Rx.Error e, s)
  end.

Definition create (payment_service : JwtAuthGuard.ClientProxy)
           (model : Schema) (now : Js.value)
           (createReservationDto : Js.object) (userId : Js.value)
  : Promise Collection (Rx.Observable (Settled Js.object)) :=
  fun c =>
    let charged :=
      payment_service "create_charge"
                      (Js.lookup "charge" createReservationDto) in
    let (reservations, c') :=
      mapAsync
        (fun res =>
           let* invoiceId := lift (Js.get res "id") in
           AbstractRepository.create model
             (Js.assign "userId" userId
                (Js.assign "invoiceId" invoiceId
                   (Js.assign "timestamp" now createReservationDto))))
        charged c in
    (Resolved reservations, c').

End ReservationsServiceWithPayments.

(* ===================================================================== *)
(** ** Stores with distinct ids *)
(* ===================================================================== *)

Module Store.

Import Mongoose.

Definition ids (c : Collection) : list Js.value :=
  List.map (Js.lookup "_id") (docs c).

(** No two stored documents have the same [_id]. *)
Definition distinctIds (c : Collection) : Prop := NoDup (ids c).

(** Every stored document has an ObjectId the generator has handed out,
    and these are pairwise distinct. *)
Definition consistent (c : Collection) : Prop :=
  wellFormed c = true /\ distinctIds c.

(** The keys an update document or a filter names. *)
Definition keys (o : Js.object) : list string := List.map fst o.

Definition names (k : string) (o : Js.object) : bool :=
  existsb (String.eqb k) (keys o).

End Store.

Module ReservationSamples.

(** Two reservations of the user [0x7]. *)
Definition sampleReservations : Mongoose.Collection :=
  Mongoose.mkCollection
    [[("startDate", Js.VNum 100); ("endDate", Js.VNum 200);
      ("placeId", Js.VStr "p1"); ("invoiceId", Js.VStr "i1");
      ("timestamp", Js.VNum 50); ("userId", Js.VStr "0x7");
      ("_id", Js.VOid 0)];
     [("startDate", Js.VNum 300); ("endDate", Js.VNum 400);
      ("placeId", Js.VStr "p2"); ("invoiceId", Js.VStr "i2");
      ("timestamp", Js.VNum 60); ("userId", Js.VStr "0x7");
      ("_id", Js.VOid 1)]]
    2 [].

(** A schema with the paths of [ReservationSchema], for dates that are
    given as the number of milliseconds they stand for; the strings
    Mongoose would parse as dates do not occur in the samples and are
    refused here. *)
Definition sampleDatePath (name : string) (isRequired : bool)
           (initial : option Js.value) : Mongoose.SchemaPath :=
  Mongoose.mkPath name
    (fun v => match v with
              | Js.VNum z => Some (Js.VNum z)
              | _ => None
              end)
    isRequired
    (fun v => match v with
              | Js.VNum _ => true
              | _ => false
              end)
    initial.

Definition sampleReservationSchema : Mongoose.Schema :=
  [sampleDatePath "timestamp" false (Some (Js.VNum 0));
   sampleDatePath "startDate" true None;
   sampleDatePath "endDate" true None;
   Mongoose.stringPath "userId" true;
   Mongoose.stringPath "placeId" true;
   Mongoose.stringPath "invoiceId" true].

Definition sampleReservationsOffline : Mongoose.Collection :=
  Mongoose.mkCollection (Mongoose.docs sampleReservations) 2
    [Some (JsError "MongoNetworkError" "connection timed out")].

Definition sampleDto : Js.object :=
  [("startDate", Js.VNum 500); ("endDate", Js.VNum 600);
   ("placeId", Js.VStr "p3"); ("invoiceId", Js.VStr "i3")].

(** An authority that answers every message with [identity]. *)
Definition answering (identity : Js.value) : JwtAuthGuard.ClientProxy :=
  fun _ _ => Rx.of_ identity.

(** An authority that refuses every message. *)
Definition refusing : JwtAuthGuard.ClientProxy :=
  fun _ _ => Rx.Error (Js.VStr "Unauthorized").

Definition requestWithCookie : Js.object :=
  [("cookies", Js.VObj [("Authentication", Js.VStr "token")]);
   ("headers", Js.VObj [("host", Js.VStr "localhost")])].

End ReservationSamples.

(* ===================================================================== *)
(** * Properties *)
(* ===================================================================== *)

Abbreviation notFound := (NotFoundException "The document was not found").

(** ** Objects *)

Module JsFacts.

Import Js.

Lemma lookup_assign_same k v o : lookup k (assign k v o) = v.
Proof.
  induction o as [| [k' v'] rest IH]; simpl.
  - now rewrite String.eqb_refl.
  - destruct (k' =? k) eqn:E; simpl; rewrite E; auto.
Qed.

Lemma lookup_assign_other k k' v o :
  k' <> k -> lookup k' (assign k v o) = lookup k' o.
Proof.
  intros Hne. induction o as [| [k0 v0] rest IH]; simpl.
  - destruct (k =? k') eqn:E; auto.
    apply String.eqb_eq in E. congruence.
  - destruct (k0 =? k) eqn:E; simpl.
    + apply String.eqb_eq in E. subst k0.
      destruct (k =? k') eqn:E'; auto.
      apply String.eqb_eq in E'. congruence.
    + destruct (k0 =? k'); auto.
Qed.

Lemma truthy_or a b : truthy (or a b) = truthy a || truthy b.
Proof. unfold or. destruct (truthy a) eqn:E; simpl; auto. Qed.

End JsFacts.

(** ** The list functions behind the queries *)

Module ListFacts.

Section First.

Context {A : Type} (p : A -> bool).

Lemma filter_nil_find (l : list A) : filter p l = [] -> List.find p l = None.
Proof.
  induction l as [| x l IH]; simpl; auto.
  destruct (p x); [discriminate | auto].
Qed.

Lemma find_none_filter (l : list A) : List.find p l = None -> filter p l = [].
Proof.
  induction l as [| x l IH]; simpl; auto.
  destruct (p x); [discriminate | auto].
Qed.

Lemma find_app_skip (l : list A) (x : A) :
  filter p l = [] -> p x = true -> List.find p (l ++ [x])%list = Some x.
Proof.
  induction l as [| y l IH]; simpl; intros Hl Hx.
  - now rewrite Hx.
  - destruct (p y); [discriminate | auto].
Qed.

End First.

Lemma splitFirst_none p ds :
  filter p ds = [] -> Mongoose.splitFirst p ds = None.
Proof.
  induction ds as [| d ds IH]; simpl; auto.
  destruct (p d); [discriminate |].
  intros H. now rewrite IH.
Qed.

Lemma splitFirst_find p ds :
  match Mongoose.splitFirst p ds with
  | Some (before, d, after) =>
      List.find p ds = Some d /\ ds = (before ++ d :: after)%list
      /\ filter p before = []
  | None => List.find p ds = None
  end.
Proof.
  induction ds as [| d ds IH]; simpl; auto.
  destruct (p d) eqn:E; auto.
  destruct (Mongoose.splitFirst p ds) as [[[before m] after] |]; auto.
  destruct IH as (Hf & Hds & Hb). simpl. rewrite E. subst ds. auto.
Qed.

End ListFacts.

(** ** The store *)

Module MongooseFacts.

Import Mongoose.

Lemma castObjectId_toHexString n : castObjectId (toHexString n) = Some n.
Proof.
  unfold castObjectId, toHexString.
  rewrite HexString.to_N_of_N. now rewrite String.eqb_refl.
Qed.

(** With the store reachable a round trip is the operation itself. *)
Lemma exchange_reachable {A} (op : Collection -> Settled A * Collection) c :
  reachable c -> exchange op c = op c.
Proof. unfold reachable, exchange. now intros ->. Qed.

(** A failing round trip rejects with the failure and does nothing else. *)
Lemma exchange_outage {A} (op : Collection -> Settled A * Collection)
      ds next e later :
  exchange op (mkCollection ds next (Some e :: later))
  = (Rejected e, mkCollection ds next later).
Proof. reflexivity. Qed.

(** A filter on an ObjectId or on any field but [_id] casts to itself. *)
Lemma castFilter_oid n :
  castFilter [("_id", Js.VOid n)] = inr [("_id", Js.VOid n)].
Proof. reflexivity. Qed.

Lemma castFilter_hex n :
  castFilter [("_id", Js.VStr (toHexString n))] = inr [("_id", Js.VOid n)].
Proof.
  cbn [castFilter]. rewrite String.eqb_refl.
  now rewrite castObjectId_toHexString.
Qed.

Lemma castFilter_email s :
  castFilter [("email", Js.VStr s)] = inr [("email", Js.VStr s)].
Proof. reflexivity. Qed.

Lemma matches_id n doc :
  matches [("_id", Js.VOid n)] doc
  = Js.value_eqb (Js.VOid n) (Js.lookup "_id" doc).
Proof. unfold matches. simpl. now rewrite andb_true_r. Qed.

(** A document whose id was issued earlier is not selected by the id the
    generator hands out next. *)
Lemma issued_not_next next doc :
  issued next doc = true ->
  Js.value_eqb (Js.VOid next) (Js.lookup "_id" doc) = false.
Proof.
  unfold issued. destruct (Js.lookup "_id" doc); try discriminate.
  simpl. intros H. apply N.ltb_lt in H. apply N.eqb_neq. lia.
Qed.

Lemma wellFormed_no_next c :
  wellFormed c = true ->
  filter (matches [("_id", Js.VOid (nextObjectId c))]) (docs c) = []
  /\ existsb (fun d => Js.value_eqb (Js.VOid (nextObjectId c))
                                    (Js.lookup "_id" d)) (docs c) = false.
Proof.
  unfold wellFormed. generalize (nextObjectId c) as next.
  induction (docs c) as [| d ds IH]; cbn [forallb filter existsb];
    intros next H; auto.
  apply andb_true_iff in H as [Hd Hds].
  rewrite matches_id, (issued_not_next _ _ Hd). cbn [orb].
  now apply IH.
Qed.

Lemma issued_mono next next' doc :
  (next <= next')%N -> issued next doc = true -> issued next' doc = true.
Proof.
  unfold issued. destruct (Js.lookup "_id" doc); auto.
  intros Hle H. apply N.ltb_lt in H. apply N.ltb_lt. lia.
Qed.

End MongooseFacts.

(** ** Schemas *)

Module SchemaFacts.

Import Js Mongoose Store.

Lemma names_false_lookup k o : names k o = false -> lookup k o = VUndefined.
Proof.
  unfold names, keys. induction o as [| [k0 v0] rest IH]; cbn; auto.
  intros H. apply orb_false_iff in H as [Hk Hrest].
  rewrite String.eqb_sym, Hk. auto.
Qed.

Lemma lookup_app k o o' :
  lookup k (o ++ o')%list = if names k o then lookup k o else lookup k o'.
Proof.
  unfold names, keys. induction o as [| [k0 v0] rest IH]; cbn; auto.
  rewrite (String.eqb_sym k k0). destruct (k0 =? k); cbn; auto.
Qed.

Lemma names_app k o o' : names k (o ++ o')%list = names k o || names k o'.
Proof. unfold names, keys. now rewrite map_app, existsb_app. Qed.

(** The inherited path. *)
Lemma pathOf_id schema : pathOf schema "_id" = Some (objectIdPath "_id").
Proof. reflexivity. Qed.

(** A path found under a name has that name. *)
Lemma pathOf_name schema k p : pathOf schema k = Some p -> pathName p = k.
Proof.
  unfold pathOf. intros H. apply find_some in H as [_ H].
  now apply String.eqb_eq.
Qed.

(** Every path of the schema is found under its name, if not itself then
    an earlier one of the same name. *)
Lemma pathOf_declared schema p :
  In p (AbstractDocument ++ schema)%list -> pathOf schema (pathName p) <> None.
Proof.
  unfold pathOf. intros Hin Hnone.
  apply (find_none _ _ Hnone) in Hin. now rewrite String.eqb_refl in Hin.
Qed.

(** One field is dropped or cast under its own name. *)
Lemma castField_shape schema k v kept :
  castField schema k v = Some kept ->
  (kept = [] /\ (pathOf schema k = None \/ v = VUndefined))
  \/ exists p held,
      kept = [(k, held)] /\ pathOf schema k = Some p
      /\ v <> VUndefined /\ castTo p v held.
Proof.
  unfold castField.
  destruct (pathOf schema k) as [p |]; [| intros [= <-]; auto].
  assert (Hcast : forall held,
             castValue p v = Some held -> v <> VUndefined -> v <> VNull ->
             castTo p v held).
  { intros held Hheld. now destruct v. }
  destruct v eqn:Hv;
    try (rewrite <- Hv in *;
         destruct (castValue p v) as [held |] eqn:Hheld; [| discriminate];
         intros [= <-]; right; exists p, held;
         repeat split; try (subst v; discriminate);
         apply Hcast; [reflexivity | subst v; discriminate ..]).
  - intros [= <-]. auto.
  - intros [= <-]. right. exists p, VNull.
    repeat split. discriminate.
Qed.

Lemma castField_names schema k v kept k' :
  castField schema k v = Some kept ->
  names k' kept = true -> k' = k /\ pathOf schema k <> None.
Proof.
  intros H. destruct (castField_shape _ _ _ _ H)
    as [[-> _] | (p & held & -> & Hp & _)]; [discriminate |].
  unfold names, keys. cbn [List.map fst existsb]. rewrite orb_false_r.
  intros Hk. apply String.eqb_eq in Hk. split; [exact Hk | congruence].
Qed.

(** A cast update or document names only fields that were given and that
    the schema has. *)
Lemma castFields_names schema fields cast k :
  castFields schema fields = Some cast ->
  names k cast = true -> names k fields = true /\ pathOf schema k <> None.
Proof.
  revert cast. induction fields as [| [k0 v0] rest IH]; cbn [castFields];
    intros cast.
  - intros [= <-]. discriminate.
  - destruct (castField schema k0 v0) as [kept |] eqn:Hkept; [| discriminate].
    destruct (castFields schema rest) as [rest' |]; [| discriminate].
    intros [= <-]. rewrite names_app. intros H.
    apply orb_true_iff in H as [H | H].
    + destruct (castField_names _ _ _ _ _ Hkept H) as [-> Hp].
      split; [| exact Hp]. unfold names, keys. cbn.
      now rewrite String.eqb_refl.
    + destruct (IH rest' eq_refl H) as [Hn Hp]. split; [| exact Hp].
      unfold names, keys in *. cbn. rewrite Hn. apply orb_true_r.
Qed.

(** Strict mode: a field the schema does not have is not there. *)
Lemma castFields_strict schema fields cast k :
  castFields schema fields = Some cast ->
  pathOf schema k = None -> names k cast = false.
Proof.
  intros Hcast Hk. destruct (names k cast) eqn:Hn; [| reflexivity].
  now destruct (castFields_names _ _ _ _ Hcast Hn).
Qed.

(** A field that was given with a value is there, as its path casts the
    value. *)
Lemma castFields_lookup schema fields cast k p :
  castFields schema fields = Some cast ->
  pathOf schema k = Some p ->
  castTo p (lookup k fields) (lookup k cast)
  /\ (lookup k fields <> VUndefined -> names k cast = true).
Proof.
  intros Hcast Hp. revert cast Hcast.
  induction fields as [| [k0 v0] rest IH]; cbn [castFields]; intros cast.
  - intros _. cbn. split; [exact I | congruence].
  - destruct (castField schema k0 v0) as [kept |] eqn:Hkept; [| discriminate].
    destruct (castFields schema rest) as [rest' |]; [| discriminate].
    intros [= <-]. specialize (IH rest' eq_refl).
    rewrite lookup_app, names_app. cbn [lookup].
    destruct (k0 =? k) eqn:Hk.
    + apply String.eqb_eq in Hk. subst k0.
      destruct (castField_shape _ _ _ _ Hkept)
        as [[-> [Hnone | ->]] | (p' & held & -> & Hp' & Hv & Hto)].
      * congruence.
      * split; [exact I | congruence].
      * assert (p' = p) by congruence. subst p'.
        unfold names, keys. cbn. rewrite !String.eqb_refl. cbn.
        split; [exact Hto | reflexivity].
    + assert (Hn : names k kept = false).
      { destruct (names k kept) eqn:Hn; [| reflexivity].
        destruct (castField_names _ _ _ _ _ Hkept Hn) as [-> _].
        now rewrite String.eqb_refl in Hk. }
      rewrite Hn. exact IH.
Qed.


(** Defaults are added at the end and only under names of the schema, so
    that a field that is there, and a name the schema does not have, are
    not touched. *)
Lemma applyDefaults_lookup schema doc k :
  names k doc = true \/ pathOf schema k = None ->
  lookup k (applyDefaults schema doc) = lookup k doc
  /\ names k (applyDefaults schema doc) = names k doc.
Proof.
  unfold applyDefaults. intros H.
  assert (Hps : forall p, In p (AbstractDocument ++ schema)%list ->
                          names k doc = true \/ pathName p <> k).
  { intros p Hin. destruct H as [H | H]; [now left | right].
    intros <-. now apply (pathOf_declared schema p). }
  clear H. revert doc Hps.
  induction (AbstractDocument ++ schema)%list as [| p ps IH]; intros doc Hps;
    cbn [fold_left]; [now split |].
  set (doc' := match defaultValue p, lookup (pathName p) doc with
               | Some v, VUndefined => (doc ++ [(pathName p, v)])%list
               | _, _ => doc
               end).
  assert (Hdoc' : lookup k doc' = lookup k doc /\ names k doc' = names k doc).
  { unfold doc'. destruct (defaultValue p) as [v |]; [| now split].
    destruct (lookup (pathName p) doc); try now split.
    rewrite lookup_app, names_app.
    destruct (Hps p (or_introl eq_refl)) as [Hn | Hne].
    - rewrite Hn. now split.
    - destruct (names k doc) eqn:Hn; [now split |]. cbn.
      assert (Hk : (pathName p =? k) = false) by now apply String.eqb_neq.
      unfold names, keys. cbn. rewrite Hk, String.eqb_sym, Hk.
      split; [| reflexivity]. symmetry. now apply names_false_lookup. }
  destruct Hdoc' as [Hl Hn]. rewrite <- Hl, <- Hn. apply IH.
  intros q Hq. rewrite Hn. apply Hps. now right.
Qed.

(** What a validated document holds: nothing under a name the schema does
    not have, and under a path the value given for it, as cast; and it
    passes the validators. *)
Lemma validated_fields schema doc document :
  validated schema doc = inr document ->
  (forall k, pathOf schema k = None -> lookup k document = VUndefined)
  /\ (forall k p,
         pathOf schema k = Some p ->
         castTo p (lookup k doc) (lookup k document))
  /\ valid schema document = true.
Proof.
  unfold validated.
  destruct (castFields schema doc) as [cast |] eqn:Hcast; [| discriminate].
  destruct (valid schema (applyDefaults schema cast)) eqn:Hvalid;
    [| discriminate].
  intros [= <-]. split; [| split; [| exact Hvalid]].
  - intros k Hk.
    destruct (applyDefaults_lookup schema cast k (or_intror Hk)) as [-> _].
    apply names_false_lookup. now apply (castFields_strict _ _ _ _ Hcast).
  - intros k p Hp.
    destruct (castFields_lookup _ _ _ _ _ Hcast Hp) as [Hto Hn].
    destruct (lookup k doc) eqn:Hgiven; try exact I;
      (destruct (applyDefaults_lookup schema cast k) as [-> _];
       [left; apply Hn; discriminate | exact Hto]).
Qed.

(** The [_id] the repository gives is the [_id] of the validated
    document. *)
Lemma validated_id schema doc document n :
  validated schema doc = inr document ->
  lookup "_id" doc = VOid n -> lookup "_id" document = VOid n.
Proof.
  intros H Hid. destruct (validated_fields _ _ _ H) as (_ & Hto & _).
  specialize (Hto "_id" _ (pathOf_id schema)). rewrite Hid in Hto.
  cbn in Hto. congruence.
Qed.

(** The user document [register] builds passes the user schema as it is,
    when neither string is empty. *)
Lemma validated_user address hashed n :
  address <> "" -> hashed <> "" ->
  validated UserSchema
          [("email", VStr address); ("password", VStr hashed);
           ("_id", VOid n)]
  = inr [("email", VStr address); ("password", VStr hashed);
         ("_id", VOid n)].
Proof.
  intros Ha Hh. apply String.eqb_neq in Ha, Hh.
  unfold validated. cbn. now rewrite Ha, Hh.
Qed.

End SchemaFacts.

(** ** The repository *)

Module RepositoryFacts.

Import Mongoose Samples.


(** What [create] does on a reachable, well-formed store with a
    document the schema accepts. *)
Lemma create_reachable schema document created c :
  reachable c -> wellFormed c = true ->
  validated schema (Js.assign "_id" (Js.VOid (nextObjectId c)) document)
  = inr created ->
  AbstractRepository.create schema document c
  = (Resolved created,
     mkCollection (docs c ++ [created]) (N.succ (nextObjectId c)) []).
Proof.
  intros Hr Hwf Hcreated.
  destruct (MongooseFacts.wellFormed_no_next c Hwf) as [_ Hfresh].
  pose proof (SchemaFacts.validated_id _ _ _ _ Hcreated
                (JsFacts.lookup_assign_same _ _ _)) as Hid.
  unfold AbstractRepository.create, await, newObjectId, save.
  cbn [nextObjectId]. rewrite Hcreated. unfold exchange.
  cbn [outages docs nextObjectId]. rewrite Hr, Hid, Hfresh. reflexivity.
Qed.

(** A document the schema refuses is refused by [create], with the
    ValidationError, whether or not the store can be reached; the
    ObjectId made for it is lost and nothing else has happened. *)
Lemma create_refused schema document e c :
  validated schema (Js.assign "_id" (Js.VOid (nextObjectId c)) document)
  = inl e ->
  AbstractRepository.create schema document c
  = (Rejected e,
     mkCollection (docs c) (N.succ (nextObjectId c)) (outages c)).
Proof.
  intros Hrefused.
  unfold AbstractRepository.create, await, newObjectId, save.
  cbn [nextObjectId]. now rewrite Hrefused.
Qed.

(** Both together, with what the created document holds. *)
Lemma create_outcome schema document c :
  reachable c -> wellFormed c = true ->
  match validated schema
          (Js.assign "_id" (Js.VOid (nextObjectId c)) document)
  with
  | inr created =>
      AbstractRepository.create schema document c
      = (Resolved created,
         mkCollection (docs c ++ [created]) (N.succ (nextObjectId c)) [])
      /\ Js.lookup "_id" created = Js.VOid (nextObjectId c)
      /\ (forall k p,
             k <> "_id" -> pathOf schema k = Some p ->
             castTo p (Js.lookup k document) (Js.lookup k created))
      /\ (forall k,
             pathOf schema k = None -> Js.lookup k created = Js.VUndefined)
  | inl e =>
      AbstractRepository.create schema document c
      = (Rejected e,
         mkCollection (docs c) (N.succ (nextObjectId c)) (outages c))
  end.
Proof.
  intros Hr Hwf.
  destruct (validated schema
              (Js.assign "_id" (Js.VOid (nextObjectId c)) document))
    as [e | created] eqn:Hcreated.
  { exact (create_refused _ _ _ c Hcreated). }
  destruct (SchemaFacts.validated_fields _ _ _ Hcreated)
    as (Hstrict & Hto & _).
  split; [exact (create_reachable _ _ _ c Hr Hwf Hcreated) |].
  split.
  { exact (SchemaFacts.validated_id _ _ _ _ Hcreated
             (JsFacts.lookup_assign_same _ _ _)). }
  split; [| exact Hstrict].
  intros k p Hk Hp. specialize (Hto k p Hp).
  now rewrite JsFacts.lookup_assign_other in Hto.
Qed.

(** [findOne] on a reachable store: the first document the cast filter
    matches, and a NotFoundException when there is none. *)
Lemma findOne_cast filterQuery f c :
  reachable c -> castFilter filterQuery = inr f ->
  AbstractRepository.findOne filterQuery c
  = match List.find (matches f) (docs c) with
    | Some d => (Resolved d, c)
    | None => (Rejected notFound, c)
    end.
Proof.
  intros Hr Hcast.
  unfold AbstractRepository.findOne, await, Mongoose.findOne, casting.
  rewrite Hcast, (MongooseFacts.exchange_reachable _ c Hr).
  now destruct (List.find (matches f) (docs c)).
Qed.

(** A lookup whose round trip fails rejects with that failure, not with
    a NotFoundException. *)
Lemma findOne_outage filterQuery f ds next e later :
  castFilter filterQuery = inr f ->
  AbstractRepository.findOne filterQuery
    (mkCollection ds next (Some e :: later))
  = (Rejected e, mkCollection ds next later).
Proof.
  intros Hcast.
  unfold AbstractRepository.findOne, await, Mongoose.findOne, casting.
  now rewrite Hcast, MongooseFacts.exchange_outage.
Qed.

(** When the store answers [null] the lookup is a NotFoundException. *)
Lemma findOne_selected filterQuery c ds :
  reachable c -> selected filterQuery c = Some ds ->
  AbstractRepository.findOne filterQuery c
  = match ds with
    | [] => (Rejected notFound, c)
    | d :: _ => (Resolved d, c)
    end.
Proof.
  unfold selected. intros Hr Hsel.
  destruct (castFilter filterQuery) as [e | f] eqn:Hcast; [discriminate |].
  injection Hsel as <-.
  unfold AbstractRepository.findOne, await, Mongoose.findOne, casting.
  rewrite Hcast, (MongooseFacts.exchange_reachable _ c Hr).
  destruct (List.filter (matches f) (docs c)) as [| d ds'] eqn:Hf.
  - now rewrite (ListFacts.filter_nil_find _ _ Hf).
  - assert (Hfind : List.find (matches f) (docs c) = Some d).
    { clear Hr. induction (docs c) as [| x l IH]; [discriminate |].
      simpl in *. destruct (matches f x); [now inversion Hf | auto]. }
    now rewrite Hfind.
Qed.



(** C2. On a reachable, well-formed store, create with a document the
    schema of the model accepts resolves to that document as the schema
    casts it, with its new ObjectId: under every path of the schema it
    holds the value the document gives, as the path casts it, and it
    holds nothing under a name the schema does not have; it is stored
    last; and findOne by the returned [_id] on the resulting store
    resolves to the very same document.  A document the schema refuses is
    not created: create rejects with the ValidationError and stores
    nothing. *)
Theorem create_findOne_roundtrip schema document c :
  reachable c -> wellFormed c = true ->
  match validated schema
          (Js.assign "_id" (Js.VOid (nextObjectId c)) document)
  with
  | inr created =>
      exists c',
        AbstractRepository.create schema document c = (Resolved created, c')
        /\ docs c' = (docs c ++ [created])%list
        /\ Js.lookup "_id" created = Js.VOid (nextObjectId c)
        /\ (forall k p,
               k <> "_id" -> pathOf schema k = Some p ->
               castTo p (Js.lookup k document) (Js.lookup k created))
        /\ (forall k,
               pathOf schema k = None -> Js.lookup k created = Js.VUndefined)
        /\ AbstractRepository.findOne [("_id", Js.lookup "_id" created)] c'
           = (Resolved created, c')
  | inl e =>
      AbstractRepository.create schema document c
      = (Rejected e,
         mkCollection (docs c) (N.succ (nextObjectId c)) (outages c))
  end.
Proof.
  intros Hr Hwf.
  pose proof (create_outcome schema document c Hr Hwf) as Hcreate.
  destruct (validated schema
              (Js.assign "_id" (Js.VOid (nextObjectId c)) document))
    as [e | created]; [exact Hcreate |].
  destruct Hcreate as (Hcreate & Hid & Hto & Hstrict).
  destruct (MongooseFacts.wellFormed_no_next c Hwf) as [Hnone _].
  eexists. split; [exact Hcreate |].
  split; [reflexivity |]. split; [exact Hid |].
  split; [exact Hto |]. split; [exact Hstrict |].
  rewrite Hid.
  unfold AbstractRepository.findOne, await, Mongoose.findOne, casting.
  rewrite MongooseFacts.castFilter_oid.
  rewrite MongooseFacts.exchange_reachable by reflexivity.
  cbn [docs]. rewrite (ListFacts.find_app_skip _ _ _ Hnone); [reflexivity |].
  rewrite MongooseFacts.matches_id, Hid. apply N.eqb_refl.
Qed.

Lemma create_findOne_roundtrip_witness :
  (let document :=
     [("email", Js.VStr "b@x.com"); ("password", Js.VStr "$2a$10$Secret1!");
      ("role", Js.VStr "admin")] in
   let created :=
     [("email", Js.VStr "b@x.com"); ("password", Js.VStr "$2a$10$Secret1!");
      ("_id", Js.VOid 1)] in
   exists c',
     AbstractRepository.create UserSchema document sampleUsers
     = (Resolved created, c')
     /\ docs c' = (docs sampleUsers ++ [created])%list
     /\ AbstractRepository.findOne [("_id", Js.VOid 1)] c'
        = (Resolved created, c'))
  /\ AbstractRepository.create UserSchema [("email", Js.VStr "b@x.com")]
       sampleUsers
     = (Rejected (JsError "ValidationError" "Validation failed"),
        mkCollection (docs sampleUsers) 2 []).
Proof.
  split.
  - intros document created.
    pose proof (create_findOne_roundtrip UserSchema document sampleUsers
                  eq_refl eq_refl) as H.
    change (validated _ _) with (@inr Exception Js.object created) in H.
    destruct H as (c' & Hcreate & Hdocs & _ & _ & _ & Hfind).
    exists c'. repeat split; assumption.
  - exact (create_findOne_roundtrip UserSchema [("email", Js.VStr "b@x.com")]
             sampleUsers eq_refl eq_refl).
Defined.

End RepositoryFacts.

(** ** The delegating guard *)

Module GuardFacts.

Import JwtAuthGuard Samples.

(** The message the guard hands to the authority for a credential. *)
Abbreviation message context :=
  (Js.VObj [("Authentication", jwt context)]).

(** The context once that message has been handed over. *)
Abbreviation delegated context :=
  (mkContext (request context)
             (("authenticate", message context) :: sent context)).

(** [tap(setUser)] touches the request only. *)
Lemma tap_setUser_sent (o : Rx.Observable Js.value) context :
  sent (snd (Rx.tap setUser o context)) = sent context.
Proof.
  revert context. induction o as [res rest IH | |]; intros context; auto.
  cbn [Rx.tap]. specialize (IH (setUser res context)).
  destruct (Rx.tap setUser rest (setUser res context)) as [rest' context'].
  exact IH.
Qed.

Lemma tap_fst {A S} (f : A -> S -> S) (o : Rx.Observable A) s :
  fst (Rx.tap f o s) = o.
Proof.
  revert s. induction o as [a rest IH | |]; intros s; auto.
  cbn [Rx.tap]. specialize (IH (f a s)).
  destruct (Rx.tap f rest (f a s)) as [rest' s']. simpl in *. now subst.
Qed.

(** The guard with a credential: one message, then the three operators
    over the authority's answer. *)
Lemma canActivate_delegates authClient context :
  Js.truthy (jwt context) = true ->
  let response := authClient "authenticate" (message context) in
  canActivate authClient context
  = (Stream (Rx.catchError (fun _ => Rx.of_ false)
               (Rx.map (fun _ => true) response)),
     snd (Rx.tap setUser response (delegated context))).
Proof.
  intros Hjwt response. unfold canActivate, send. rewrite Hjwt. cbn [negb].
  fold response.
  pose proof (tap_fst setUser response (delegated context)) as Hfst.
  destruct (Rx.tap setUser response (delegated context)) as [tapped context2].
  simpl in *. now subst.
Qed.

(** C3. The guard looks for the credential in three places of the
    request, in this order: the property [Authentication] of its
    [cookies], its own property [Authentication], and the property
    [Authentication] of its [headers].  The credential is the first of
    the three values that is non-empty, whatever the later places hold.
    When it is non-empty, it is what the guard sends to the authority,
    under the pattern ['authenticate'] and the key [Authentication]; when
    it is empty the guard answers [false] and sends nothing. *)
Theorem credential_precedence authClient req sent0 :
  let context := mkContext req sent0 in
  let cookie := Js.opt_member (Js.lookup "cookies" req) "Authentication" in
  let field := Js.lookup "Authentication" req in
  let header := Js.opt_member (Js.lookup "headers" req) "Authentication" in
  let credential :=
    if Js.truthy cookie then cookie
    else if Js.truthy field then field else header in
  jwt context = credential
  /\ if Js.truthy credential
     then sent (snd (canActivate authClient context))
          = ("authenticate", Js.VObj [("Authentication", credential)])
              :: sent0
     else canActivate authClient context = (Immediate false, context).
Proof.
  intros context cookie field header credential.
  assert (Hjwt : jwt context = credential).
  { unfold jwt, Js.or, cookieAuthentication, requestAuthentication,
      headerAuthentication, getRequest, credential.
    cbn [request context]. fold cookie field header.
    destruct (Js.truthy cookie) eqn:Hc; cbv beta iota.
    - now rewrite Hc.
    - now destruct (Js.truthy field) eqn:Hf. }
  split; [exact Hjwt |].
  rewrite <- Hjwt. destruct (Js.truthy (jwt context)) eqn:Htruthy.
  - rewrite (canActivate_delegates authClient context Htruthy).
    cbn [snd]. now rewrite tap_setUser_sent.
  - unfold canActivate. now rewrite Htruthy.
Qed.

(** The order at work: with a credential in all three places the one of
    the cookie is sent; without the cookie, the one of the request
    field; with neither, the one of the header; and with none nothing is
    sent. *)
Lemma credential_precedence_witness :
  (jwt (mkContext requestWithAll []) = Js.VStr "from-cookie"
   /\ sent (snd (canActivate (sampleAuthority Js.VNull)
                   (mkContext requestWithAll [])))
      = [("authenticate",
          Js.VObj [("Authentication", Js.VStr "from-cookie")])])
  /\ (jwt (mkContext (tl requestWithAll) []) = Js.VStr "from-request"
      /\ sent (snd (canActivate (sampleAuthority Js.VNull)
                      (mkContext (tl requestWithAll) [])))
         = [("authenticate",
             Js.VObj [("Authentication", Js.VStr "from-request")])])
  /\ (jwt (mkContext requestWithHeader []) = Js.VStr "from-header"
      /\ sent (snd (canActivate (sampleAuthority Js.VNull)
                      (mkContext requestWithHeader [])))
         = [("authenticate",
             Js.VObj [("Authentication", Js.VStr "from-header")])])
  /\ (jwt (mkContext requestWithNone []) = Js.VUndefined
      /\ canActivate (sampleAuthority Js.VNull)
           (mkContext requestWithNone [])
         = (Immediate false, mkContext requestWithNone [])).
Proof.
  split; [| split; [| split]].
  - exact (credential_precedence (sampleAuthority Js.VNull)
             requestWithAll []).
  - exact (credential_precedence (sampleAuthority Js.VNull)
             (tl requestWithAll) []).
  - exact (credential_precedence (sampleAuthority Js.VNull)
             requestWithHeader []).
  - exact (credential_precedence (sampleAuthority Js.VNull)
             requestWithNone []).
Defined.

(** C4. A request with no credential in the cookie, in the request field
    or in the header is refused at once: the answer is [false] whatever
    the authority would say, and nothing is sent to it. *)
Theorem no_credential_rejected authClient context :
  Js.truthy (cookieAuthentication context) = false ->
  Js.truthy (requestAuthentication context) = false ->
  Js.truthy (headerAuthentication context) = false ->
  canActivate authClient context = (Immediate false, context)
  /\ decision (fst (canActivate authClient context)) = Rx.Last false
  /\ sent (snd (canActivate authClient context)) = sent context.
Proof.
  intros Hc Hf Hh.
  assert (Hjwt : Js.truthy (jwt context) = false).
  { unfold jwt. now rewrite !JsFacts.truthy_or, Hc, Hf, Hh. }
  unfold canActivate. rewrite Hjwt. repeat split.
Qed.

Lemma no_credential_rejected_witness :
  let context := mkContext requestWithNone [] in
  canActivate (sampleAuthority Js.VNull) context = (Immediate false, context)
  /\ decision (fst (canActivate (sampleAuthority Js.VNull) context))
     = Rx.Last false
  /\ sent (snd (canActivate (sampleAuthority Js.VNull) context))
     = sent context.
Proof.
  apply (no_credential_rejected (sampleAuthority Js.VNull)
           (mkContext requestWithNone [])); reflexivity.
Defined.

(** C5. With a credential on the request: when the authority answers
    with a payload, that payload becomes [request.user] and the guard
    answers [true]; when the call fails, the guard answers [false], the
    same for every error, and the request is left as it was. *)
Theorem authority_answer_decides authClient context :
  Js.truthy (jwt context) = true ->
  (forall res,
      authClient "authenticate" (message context) = Rx.of_ res ->
      canActivate authClient context
      = (Stream (Rx.of_ true),
         mkContext (Js.assign "user" res (request context))
                   (sent (delegated context)))
      /\ decision (fst (canActivate authClient context)) = Rx.Last true
      /\ Js.lookup "user" (request (snd (canActivate authClient context)))
         = res)
  /\ (forall err,
         authClient "authenticate" (message context) = Rx.Error err ->
         canActivate authClient context
         = (Stream (Rx.of_ false), delegated context)
         /\ decision (fst (canActivate authClient context)) = Rx.Last false
         /\ request (snd (canActivate authClient context))
            = request context).
Proof.
  intros Hjwt. split.
  - intros res Hres.
    rewrite (canActivate_delegates authClient context Hjwt), Hres.
    cbn. rewrite JsFacts.lookup_assign_same. repeat split.
  - intros err Herr.
    rewrite (canActivate_delegates authClient context Hjwt), Herr.
    cbn. repeat split.
Qed.

Lemma authority_answer_decides_witness :
  (decision (fst (canActivate
                    (sampleAuthority (Js.VObj [("email", Js.VStr "a@x.com")]))
                    (mkContext requestWithHeader []))) = Rx.Last true
   /\ Js.lookup "user"
        (request (snd (canActivate
                         (sampleAuthority
                            (Js.VObj [("email", Js.VStr "a@x.com")]))
                         (mkContext requestWithHeader []))))
      = Js.VObj [("email", Js.VStr "a@x.com")])
  /\ (decision (fst (canActivate (sampleAuthority Js.VNull)
                       (mkContext requestWithAll []))) = Rx.Last false
      /\ request (snd (canActivate (sampleAuthority Js.VNull)
                         (mkContext requestWithAll [])))
         = requestWithAll).
Proof.
  split.
  - destruct (authority_answer_decides
                (sampleAuthority (Js.VObj [("email", Js.VStr "a@x.com")]))
                (mkContext requestWithHeader []) eq_refl) as [Hok _].
    destruct (Hok _ eq_refl) as (_ & Hdecision & Huser).
    split; assumption.
  - destruct (authority_answer_decides (sampleAuthority Js.VNull)
                (mkContext requestWithAll []) eq_refl) as [_ Hfail].
    destruct (Hfail (Js.VStr "Unauthorized") eq_refl)
      as (_ & Hdecision & Hrequest).
    split; assumption.
Defined.

(** Without an error notification nothing is caught. *)
Lemma catchError_succeeds {A B} (f : A -> B) selector (o : Rx.Observable A) :
  Rx.succeeds o = true ->
  Rx.catchError selector (Rx.map f o) = Rx.map f o.
Proof.
  induction o as [a rest IH | |]; cbn; intros H;
    [now rewrite IH | reflexivity | discriminate].
Qed.

(** C10. The guard never looks into the payload of a successful answer.
    For an answer without error the guard's result is [true] for each
    value received, whatever the values are; and a single payload, be it
    [null], [undefined] or the empty object, is stored as [request.user]
    as it came and the request is admitted. *)
Theorem payload_never_inspected authClient context :
  Js.truthy (jwt context) = true ->
  Rx.succeeds (authClient "authenticate" (message context)) = true ->
  fst (canActivate authClient context)
  = Stream (Rx.map (fun _ => true)
              (authClient "authenticate" (message context)))
  /\ (forall res,
         authClient "authenticate" (message context) = Rx.of_ res ->
         fst (canActivate authClient context) = Stream (Rx.of_ true)
         /\ decision (fst (canActivate authClient context)) = Rx.Last true
         /\ request (snd (canActivate authClient context))
            = Js.assign "user" res (request context)).
Proof.
  intros Hjwt Hok.
  rewrite (canActivate_delegates authClient context Hjwt). cbn [fst snd].
  split.
  - now rewrite catchError_succeeds.
  - intros res Hres. rewrite Hres. cbn. repeat split.
Qed.

Lemma payload_never_inspected_witness :
  decision (fst (canActivate (sampleAuthority Js.VNull)
                   (mkContext requestWithHeader []))) = Rx.Last true
  /\ request (snd (canActivate (sampleAuthority Js.VNull)
                     (mkContext requestWithHeader [])))
     = Js.assign "user" Js.VNull requestWithHeader
  /\ decision (fst (canActivate (sampleAuthority Js.VUndefined)
                      (mkContext requestWithHeader []))) = Rx.Last true
  /\ decision (fst (canActivate (sampleAuthority (Js.VObj []))
                      (mkContext requestWithHeader []))) = Rx.Last true.
Proof.
  destruct (payload_never_inspected (sampleAuthority Js.VNull)
              (mkContext requestWithHeader []) eq_refl eq_refl)
    as [_ Hnull].
  destruct (Hnull Js.VNull eq_refl) as (_ & Hdecision & Hrequest).
  destruct (payload_never_inspected (sampleAuthority Js.VUndefined)
              (mkContext requestWithHeader []) eq_refl eq_refl)
    as [_ Hundefined].
  destruct (Hundefined Js.VUndefined eq_refl) as (_ & Hdecision' & _).
  destruct (payload_never_inspected (sampleAuthority (Js.VObj []))
              (mkContext requestWithHeader []) eq_refl eq_refl)
    as [_ Hempty].
  destruct (Hempty (Js.VObj []) eq_refl) as (_ & Hdecision'' & _).
  repeat split; assumption.
Defined.

End GuardFacts.

(** ** Users, login and token validation *)

Module UsersFacts.

Import Mongoose Samples.

Abbreviation byEmail e := [("email", Js.VStr e)].

Abbreviation emailTaken :=
  (UnprocessableEntityException "Email already exist!").

Abbreviation badCredentials :=
  (UnauthorizedException (inl "Credentials are not valid.")).

(** The document [register] hands to the repository. *)
Abbreviation newUser bcrypt createUser :=
  [("email", Js.VStr (email createUser));
   ("password", Js.VStr (hash bcrypt (password createUser) 10))].

Lemma findOne_byEmail e c :
  reachable c ->
  AbstractRepository.findOne (byEmail e) c
  = match List.find (matches (byEmail e)) (docs c) with
    | Some d => (Resolved d, c)
    | None => (Rejected notFound, c)
    end.
Proof.
  intros Hr.
  exact (RepositoryFacts.findOne_cast _ _ c Hr
           (MongooseFacts.castFilter_email e)).
Qed.

(** C9. The uniqueness check of [register] reads any failure of the
    lookup as "not taken": whatever the exception, NotFound or a failure of the
    store, [validateCreateUserDto] resolves and [register] goes on to
    [create]; only a lookup that resolves aborts it, with the
    duplicate-email error. *)
Theorem lookup_failure_means_not_taken bcrypt createUser c :
  match AbstractRepository.findOne (byEmail (email createUser)) c with
  | (Rejected error, c') =>
      UsersService.validateCreateUserDto createUser c = (Resolved tt, c')
      /\ UsersService.register bcrypt createUser c
         = AbstractRepository.create UserSchema (newUser bcrypt createUser)
             c'
  | (Resolved existing, c') =>
      UsersService.validateCreateUserDto createUser c
      = (Rejected emailTaken, c')
      /\ UsersService.register bcrypt createUser c = (Rejected emailTaken, c')
  end.
Proof.
  unfold UsersService.register, UsersService.validateCreateUserDto,
    await, attempt.
  destruct (AbstractRepository.findOne (byEmail (email createUser)) c)
    as [[existing | error] c']; split; reflexivity.
Qed.

(** The same on a store that cannot be reached for the lookup and can for
    the write: the address is registered a second time. *)
Example lookup_failure_registers_duplicate :
  exists created,
    UsersService.register sampleBcrypt sampleCreateUser sampleUsersOffline
    = (Resolved created,
       mkCollection (docs sampleUsers ++ [created]) 2 [])
    /\ Js.lookup "email" created = Js.VStr "a@x.com"
    /\ List.length
         (List.filter (matches (byEmail "a@x.com"))
                      (docs sampleUsers ++ [created])) = 2%nat.
Proof.
  exists [("email", Js.VStr "a@x.com");
          ("password", Js.VStr "$2a$10$pw123!"); ("_id", Js.VOid 1)].
  repeat split.
Qed.

(** C7. Registering an address that a stored user already has fails with
    the UnprocessableEntityException, an exception of its own class; the
    check comes before any write, so the store is as it was, and the
    first user is still what a lookup by that address returns. *)
Theorem register_duplicate_email bcrypt createUser c first :
  reachable c ->
  List.find (matches (byEmail (email createUser))) (docs c) = Some first ->
  UsersService.register bcrypt createUser c = (Rejected emailTaken, c)
  /\ (forall message, emailTaken <> NotFoundException message)
  /\ (forall cause, emailTaken <> UnauthorizedException cause)
  /\ AbstractRepository.findOne (byEmail (email createUser)) c
     = (Resolved first, c).
Proof.
  intros Hr Hfirst.
  rewrite (findOne_byEmail _ c Hr), Hfirst.
  unfold UsersService.register, UsersService.validateCreateUserDto,
    await, attempt.
  rewrite (findOne_byEmail _ c Hr), Hfirst.
  repeat split; discriminate.
Qed.

Lemma register_duplicate_email_witness :
  exists first c1,
    UsersService.register sampleBcrypt sampleCreateUser empty
    = (Resolved first, c1)
    /\ UsersService.register sampleBcrypt
         (mkCreateUserDto "a@x.com" "Another1!") c1
       = (Rejected emailTaken, c1)
    /\ AbstractRepository.findOne (byEmail "a@x.com") c1
       = (Resolved first, c1).
Proof.
  exists (hd [] (docs sampleUsers)), sampleUsers. split; [reflexivity |].
  destruct (register_duplicate_email sampleBcrypt
              (mkCreateUserDto "a@x.com" "Another1!")
              sampleUsers
              (hd [] (docs sampleUsers)) eq_refl eq_refl)
    as (Hregister & _ & _ & Hfind).
  split; [exact Hregister | exact Hfind].
Defined.

(** C6, as the code has it.  [verifyUser] fails with the repository's
    NotFoundException when no user has the address, and with the
    UnauthorizedException when the password does not match the stored
    hash; when both match it returns the stored user.
    [LocalStrategy.validate], through which login reaches it, turns
    either failure into an UnauthorizedException. *)
Theorem verifyUser_outcomes bcrypt address secret c :
  reachable c ->
  match List.find (matches (byEmail address)) (docs c) with
  | None =>
      UsersService.verifyUser bcrypt address secret c
      = (Rejected notFound, c)
      /\ LocalStrategy.validate bcrypt address secret c
         = (Rejected (UnauthorizedException (inr notFound)), c)
  | Some user =>
      forall stored,
        Js.lookup "password" user = Js.VStr stored ->
        if compare bcrypt secret stored
        then UsersService.verifyUser bcrypt address secret c
             = (Resolved user, c)
             /\ LocalStrategy.validate bcrypt address secret c
                = (Resolved user, c)
        else UsersService.verifyUser bcrypt address secret c
             = (Rejected badCredentials, c)
             /\ LocalStrategy.validate bcrypt address secret c
                = (Rejected (UnauthorizedException (inr badCredentials)), c)
  end.
Proof.
  intros Hr.
  unfold LocalStrategy.validate, try_catch, UsersService.verifyUser, await.
  rewrite (findOne_byEmail address c Hr).
  destruct (List.find (matches (byEmail address)) (docs c)) as [user |].
  - intros stored Hstored. rewrite Hstored.
    unfold UsersService.bcrypt_compare, resolve, throw.
    destruct (compare bcrypt secret stored); split; reflexivity.
  - split; reflexivity.
Qed.

Lemma verifyUser_outcomes_witness :
  UsersService.verifyUser sampleBcrypt "a@x.com" "pw123!" sampleUsers
  = (Resolved (hd [] (docs sampleUsers)), sampleUsers)
  /\ UsersService.verifyUser sampleBcrypt "a@x.com" "guess" sampleUsers
     = (Rejected badCredentials, sampleUsers)
  /\ UsersService.verifyUser sampleBcrypt "nobody@x.com" "pw123!" sampleUsers
     = (Rejected notFound, sampleUsers)
  /\ LocalStrategy.validate sampleBcrypt "nobody@x.com" "pw123!" sampleUsers
     = (Rejected (UnauthorizedException (inr notFound)), sampleUsers).
Proof.
  pose proof (verifyUser_outcomes sampleBcrypt "a@x.com" "pw123!"
                sampleUsers eq_refl "$2a$10$pw123!" eq_refl) as [Hok _].
  pose proof (verifyUser_outcomes sampleBcrypt "a@x.com" "guess"
                sampleUsers eq_refl "$2a$10$pw123!" eq_refl) as [Hbad _].
  pose proof (verifyUser_outcomes sampleBcrypt "nobody@x.com" "pw123!"
                sampleUsers eq_refl) as [Hnone Hlocal].
  repeat split; assumption.
Defined.

(** C6, as stated, fails: for an address nobody has, [verifyUser] rejects
    with the NotFoundException, which is not an UnauthorizedException. *)
Lemma verifyUser_unknown_address_not_Unauthorized :
  UsersService.verifyUser sampleBcrypt "nobody@x.com" "pw123!" sampleUsers
  = (Rejected notFound, sampleUsers)
  /\ forall cause,
      fst (UsersService.verifyUser sampleBcrypt "nobody@x.com" "pw123!"
             sampleUsers)
      <> Rejected (UnauthorizedException cause).
Proof. split; [reflexivity | discriminate]. Qed.

(** The user document a successful registration stores and returns. *)
Abbreviation registered bcrypt createUser c :=
  [("email", Js.VStr (email createUser));
   ("password", Js.VStr (hash bcrypt (password createUser) 10));
   ("_id", Js.VOid (nextObjectId c))].

(** The token [login] issues for the user registered next. *)
Abbreviation tokenFor jwtService c :=
  (sign jwtService (mkTokenpayload (toHexString (nextObjectId c)))).

(** C8, as the code has it.  Register a user with an address not yet
    taken, validate the same credentials, log in, and send the issued
    token to [authenticate]: the answer is the stored user document, with
    the [_id] and the [email] of the user registered, and with its
    [password] field, which holds the stored hash.  The user is one the
    user schema lets be created: its two required strings, the address
    and the hash, are not empty.  The assumptions on the libraries are
    that bcrypt accepts the password it hashed and that the issued token
    is a non-empty string that verifies to its payload. *)
Theorem authenticate_after_login bcrypt jwtService createUser c :
  reachable c -> wellFormed c = true ->
  List.find (matches (byEmail (email createUser))) (docs c) = None ->
  email createUser <> "" ->
  hash bcrypt (password createUser) 10 <> "" ->
  compare bcrypt (password createUser)
          (hash bcrypt (password createUser) 10) = true ->
  verify jwtService (tokenFor jwtService c)
  = Some (mkTokenpayload (toHexString (nextObjectId c))) ->
  tokenFor jwtService c <> "" ->
  let user := registered bcrypt createUser c in
  exists c1,
    UsersService.register bcrypt createUser c = (Resolved user, c1)
    /\ LocalStrategy.validate bcrypt (email createUser)
         (password createUser) c1 = (Resolved user, c1)
    /\ AuthService.login jwtService user []
       = (Resolved tt,
          [AuthService.mkCookie "Authentication" (tokenFor jwtService c)
                                true])
    /\ AuthController.handleAuthenticate jwtService
         [("Authentication", Js.VStr (tokenFor jwtService c))] c1
       = (Resolved (Js.VObj user), c1)
    /\ Js.lookup "_id" user = Js.VOid (nextObjectId c)
    /\ Js.lookup "email" user = Js.VStr (email createUser)
    /\ Js.lookup "password" user
       = Js.VStr (hash bcrypt (password createUser) 10).
Proof.
  intros Hr Hwf Hfree Haddress Hhashed Hbcrypt Hverify Htoken user.
  set (c1 := mkCollection (docs c ++ [user]) (N.succ (nextObjectId c)) []).
  assert (Hr1 : reachable c1) by reflexivity.
  destruct (MongooseFacts.wellFormed_no_next c Hwf) as [Hnoid _].
  assert (HbyEmail :
            List.find (matches (byEmail (email createUser))) (docs c1)
            = Some user).
  { apply ListFacts.find_app_skip.
    - now apply ListFacts.find_none_filter.
    - unfold matches. cbn. now rewrite String.eqb_refl. }
  assert (HbyId :
            List.find (matches [("_id", Js.VOid (nextObjectId c))]) (docs c1)
            = Some user).
  { apply ListFacts.find_app_skip; [exact Hnoid |].
    unfold matches. cbn. now rewrite N.eqb_refl. }
  exists c1. repeat split.
  - unfold UsersService.register, UsersService.validateCreateUserDto,
      await, attempt.
    rewrite (findOne_byEmail _ c Hr), Hfree.
    exact (RepositoryFacts.create_reachable UserSchema
             [("email", Js.VStr (email createUser));
              ("password", Js.VStr (hash bcrypt (password createUser) 10))]
             user c Hr Hwf
             (SchemaFacts.validated_user _ _ (nextObjectId c)
                Haddress Hhashed)).
  - unfold LocalStrategy.validate, try_catch, UsersService.verifyUser,
      await.
    rewrite (findOne_byEmail _ c1 Hr1), HbyEmail. unfold user.
    cbn [Js.lookup String.eqb Ascii.eqb Bool.eqb
         UsersService.bcrypt_compare resolve].
    now rewrite Hbcrypt.
  - unfold AuthController.handleAuthenticate, AuthController.canActivate,
      AuthController.super_canActivate, await, lift,
      JwtStrategy.jwtFromRequest.
    cbn [Js.opt_member Js.member Js.lookup String.eqb Ascii.eqb Bool.eqb
         Js.truthy].
    apply String.eqb_neq in Htoken. rewrite Htoken. cbn [negb resolve].
    rewrite Hverify.
    unfold JwtStrategy.validate, UsersService.getUser. cbn [userId _id].
    rewrite (RepositoryFacts.findOne_cast _ _ c1 Hr1
               (MongooseFacts.castFilter_hex (nextObjectId c))), HbyId.
    cbn. reflexivity.
Qed.

Lemma authenticate_after_login_witness :
  exists c1,
    UsersService.register sampleBcrypt sampleCreateUser empty
    = (Resolved (hd [] (docs sampleUsers)), c1)
    /\ AuthService.login sampleJwt (hd [] (docs sampleUsers)) []
       = (Resolved tt, [AuthService.mkCookie "Authentication" "jwt.0x0" true])
    /\ AuthController.handleAuthenticate sampleJwt
         [("Authentication", Js.VStr "jwt.0x0")] c1
       = (Resolved (Js.VObj (hd [] (docs sampleUsers))), c1).
Proof.
  assert (Hfilled : forall s : string, s <> "" -> s <> "") by auto.
  destruct (authenticate_after_login sampleBcrypt sampleJwt sampleCreateUser
              empty eq_refl eq_refl eq_refl
              (Hfilled "a@x.com" ltac:(discriminate))
              (Hfilled "$2a$10$pw123!" ltac:(discriminate))
              eq_refl eq_refl ltac:(discriminate))
    as (c1 & Hregister & _ & Hlogin & Hauthenticate & _).
  exists c1. repeat split; assumption.
Defined.

(** C8, as stated, fails: the identity [authenticate] resolves to has a
    [password] field. *)
Lemma authenticate_exposes_password_field :
  exists user token,
    UsersService.register sampleBcrypt sampleCreateUser empty
    = (Resolved user, sampleUsers)
    /\ LocalStrategy.validate sampleBcrypt "a@x.com" "pw123!" sampleUsers
       = (Resolved user, sampleUsers)
    /\ AuthService.login sampleJwt user []
       = (Resolved tt, [AuthService.mkCookie "Authentication" token true])
    /\ AuthController.handleAuthenticate sampleJwt
         [("Authentication", Js.VStr token)] sampleUsers
       = (Resolved (Js.VObj user), sampleUsers)
    /\ Js.lookup "password" user = Js.VStr "$2a$10$pw123!"
    /\ Js.lookup "password" user <> Js.VUndefined.
Proof.
  exists (hd [] (docs sampleUsers)), "jwt.0x0".
  repeat split. discriminate.
Qed.

End UsersFacts.

(** ** The store stays well formed *)

(** Whatever a repository operation answers, and whether or not the
    server could be reached, it leaves a well-formed store well formed:
    the premise of the round trip above is an invariant. *)
Module InvariantFacts.

Import Mongoose.

Lemma wellFormed_outages ds next o o' :
  wellFormed (mkCollection ds next o) = wellFormed (mkCollection ds next o').
Proof. reflexivity. Qed.

Lemma exchange_wellFormed {A} (op : Collection -> Settled A * Collection)
      c r c' :
  (forall o r0 c0',
      op (mkCollection (docs c) (nextObjectId c) o) = (r0, c0') ->
      wellFormed c0' = true) ->
  wellFormed c = true -> exchange op c = (r, c') -> wellFormed c' = true.
Proof.
  intros Hop Hwf. unfold exchange.
  destruct c as [ds next o]. cbn [outages docs nextObjectId] in *.
  destruct o as [| [e |] later].
  - apply Hop.
  - intros H. inversion H; subst. exact Hwf.
  - apply Hop.
Qed.

Lemma casting_wellFormed {A} filterQuery
      (query : FilterQuery -> Promise Collection A) c r c' :
  (forall f r0 c0', query f c = (r0, c0') -> wellFormed c0' = true) ->
  wellFormed c = true ->
  casting filterQuery query c = (r, c') -> wellFormed c' = true.
Proof.
  intros Hq Hwf. unfold casting.
  destruct (castFilter filterQuery) as [e | f].
  - intros H. inversion H; subst. exact Hwf.
  - apply Hq.
Qed.

(** A repository method that only rethrows or returns what the model
    answered leaves the store where the model left it. *)
Lemma orNotFound_state {A} (p : Promise Collection (option A)) c r c' :
  (let* document := p in
   match document with
   | None => throw notFound
   | Some document => resolve document
   end) c = (r, c') ->
  exists r0, p c = (r0, c').
Proof.
  unfold await. destruct (p c) as [[[a |] | e] c0]; intros H;
    inversion H; subst; eauto.
Qed.

Lemma value_eqb_oid v n : Js.value_eqb v (Js.VOid n) = true -> v = Js.VOid n.
Proof.
  destruct v; simpl; try discriminate.
  intros H. apply N.eqb_eq in H. now subst.
Qed.

Lemma issued_same_id next d d' :
  issued next d = true ->
  Js.value_eqb (Js.lookup "_id" d') (Js.lookup "_id" d) = true ->
  issued next d' = true.
Proof.
  unfold issued. destruct (Js.lookup "_id" d) eqn:E; try discriminate.
  intros Hlt Heq. now rewrite (value_eqb_oid _ _ Heq).
Qed.

Lemma findOne_wellFormed filterQuery c r c' :
  wellFormed c = true ->
  AbstractRepository.findOne filterQuery c = (r, c') -> wellFormed c' = true.
Proof.
  intros Hwf H. apply orNotFound_state in H as [r0 H].
  revert H. apply casting_wellFormed; auto. intros f r1 c1.
  apply exchange_wellFormed; auto.
  intros o r2 c2 E. now inversion E; subst.
Qed.

Lemma find_wellFormed filterQuery c r c' :
  wellFormed c = true ->
  AbstractRepository.find filterQuery c = (r, c') -> wellFormed c' = true.
Proof.
  intros Hwf. unfold AbstractRepository.find, await.
  destruct (Mongoose.find filterQuery c) as [[ds | e] c0] eqn:E;
    intros H; inversion H; subst; clear H; revert E;
    (apply casting_wellFormed; auto; intros f r1 c1;
     apply exchange_wellFormed; auto;
     intros o r2 c2 E; now inversion E; subst).
Qed.

(** The documents around the first match are documents of the store. *)
Lemma splitFirst_issued p next ds :
  forallb (issued next) ds = true ->
  match splitFirst p ds with
  | Some (before, d, after) =>
      forallb (issued next) before = true /\ issued next d = true
      /\ forallb (issued next) after = true
  | None => True
  end.
Proof.
  intros Hwf.
  pose proof (ListFacts.splitFirst_find p ds) as Hsplit.
  destruct (splitFirst p ds) as [[[before d] after] |]; auto.
  destruct Hsplit as (_ & Hdocs & _). subst ds.
  rewrite forallb_app in Hwf. cbn [forallb] in Hwf.
  apply andb_true_iff in Hwf as [Hb Ha].
  apply andb_true_iff in Ha as [Hd Ha]. auto.
Qed.

Lemma findOneAndDelete_wellFormed filterQuery c r c' :
  wellFormed c = true ->
  AbstractRepository.findOneAndDelete filterQuery c = (r, c') ->
  wellFormed c' = true.
Proof.
  intros Hwf H. apply orNotFound_state in H as [r0 H].
  revert H. apply casting_wellFormed; auto. intros f r1 c1.
  apply exchange_wellFormed; auto.
  intros o r2 c2. cbn [docs nextObjectId].
  pose proof (splitFirst_issued (matches f) _ _ Hwf) as Hsplit.
  destruct (splitFirst (matches f) (docs c)) as [[[before d] after] |];
    intros E; inversion E; subst; auto.
  destruct Hsplit as (Hb & _ & Ha).
  unfold wellFormed. cbn [docs nextObjectId].
  now rewrite forallb_app, Hb, Ha.
Qed.

Lemma findOneAndUpdate_wellFormed schema filterQuery update c r c' :
  wellFormed c = true ->
  AbstractRepository.findOneAndUpdate schema filterQuery update c = (r, c') ->
  wellFormed c' = true.
Proof.
  intros Hwf H. apply orNotFound_state in H as [r0 H].
  revert H. apply casting_wellFormed; auto. intros f r1 c1.
  destruct (castFields schema (set_ update)) as [fields |];
    [| intros E; now inversion E; subst].
  apply exchange_wellFormed; auto.
  intros o r2 c2. cbn [docs nextObjectId].
  pose proof (splitFirst_issued (matches f) _ _ Hwf) as Hsplit.
  destruct (splitFirst (matches f) (docs c)) as [[[before d] after] |];
    [| intros E; now inversion E; subst].
  destruct Hsplit as (Hb & Hd & Ha).
  destruct (Js.value_eqb (Js.lookup "_id" (setFields fields d))
                         (Js.lookup "_id" d)) eqn:Hid;
    intros E; inversion E; subst; auto.
  unfold wellFormed. cbn [docs nextObjectId].
  rewrite forallb_app. cbn [forallb].
  now rewrite Hb, Ha, (issued_same_id _ _ _ Hd Hid).
Qed.

Lemma create_wellFormed schema document c r c' :
  wellFormed c = true ->
  AbstractRepository.create schema document c = (r, c') ->
  wellFormed c' = true.
Proof.
  intros Hwf. unfold AbstractRepository.create, await, newObjectId, save.
  cbn [nextObjectId].
  assert (Hwf0 : forall o,
             wellFormed (mkCollection (docs c) (N.succ (nextObjectId c)) o)
             = true).
  { intros o. unfold wellFormed in *. cbn [docs nextObjectId].
    rewrite forallb_forall in *. intros d Hd.
    apply (MongooseFacts.issued_mono (nextObjectId c)); [lia | auto]. }
  destruct (validated schema
              (Js.assign "_id" (Js.VOid (nextObjectId c)) document))
    as [e | created] eqn:Hcreated.
  { unfold throw. intros [= <- <-]. apply Hwf0. }
  pose proof (SchemaFacts.validated_id _ _ _ _ Hcreated
                (JsFacts.lookup_assign_same _ _ _)) as Hid.
  assert (Hwf1 : forall o,
             wellFormed (mkCollection (docs c ++ [created])
                           (N.succ (nextObjectId c)) o) = true).
  { intros o. specialize (Hwf0 o). unfold wellFormed in *.
    cbn [docs nextObjectId] in *.
    rewrite forallb_app, Hwf0. cbn [forallb andb]. rewrite andb_true_r.
    unfold issued. rewrite Hid. apply N.ltb_lt. lia. }
  unfold exchange, resolve. cbn [outages docs nextObjectId].
  destruct (outages c) as [| [e |] later];
    try destruct (existsb _ (docs c)); intros [= <- <-];
    solve [apply Hwf0 | apply Hwf1].
Qed.

(** The empty store is well formed, so every store the repository can
    build from it is. *)
Lemma empty_wellFormed : wellFormed empty = true /\ reachable empty.
Proof. split; reflexivity. Qed.

End InvariantFacts.

(** ** Updates of an object *)

Module UpdateFacts.

Import Js Mongoose Store.

Lemma value_eqb_refl : forall v, value_eqb v v = true.
Proof.
  fix IH 1. intros [| | b | z | s | n | fields]; cbn [value_eqb].
  1, 2: reflexivity.
  - apply Bool.eqb_reflx.
  - apply Z.eqb_refl.
  - apply String.eqb_refl.
  - apply N.eqb_refl.
  - induction fields as [| [k v] rest IHrest]; [reflexivity |].
    now rewrite String.eqb_refl, (IH v), IHrest.
Qed.

Lemma value_eqb_oid_l n v : value_eqb (VOid n) v = true -> v = VOid n.
Proof.
  destruct v; simpl; try discriminate.
  intros H. apply N.eqb_eq in H. now subst.
Qed.

Lemma names_cons k k0 v0 o :
  names k ((k0, v0) :: o) = (k =? k0) || names k o.
Proof. reflexivity. Qed.

(** A field the update does not name keeps its value. *)
Lemma lookup_setFields_other k fields doc :
  names k fields = false -> lookup k (setFields fields doc) = lookup k doc.
Proof.
  revert doc. induction fields as [| [k0 v0] rest IH]; intros doc H; auto.
  rewrite names_cons in H. apply orb_false_iff in H as [Hk Hrest].
  unfold setFields in *. cbn [fold_left fst snd]. rewrite IH by exact Hrest.
  apply JsFacts.lookup_assign_other. apply String.eqb_neq. exact Hk.
Qed.

Lemma setFields_app fields fields' doc :
  setFields (fields ++ fields')%list doc
  = setFields fields' (setFields fields doc).
Proof. unfold setFields. apply fold_left_app. Qed.

(** A field takes the value of the last entry the update has for it. *)
Lemma lookup_setFields_last k v front back doc :
  names k back = false ->
  lookup k (setFields (front ++ (k, v) :: back)%list doc) = v.
Proof.
  intros Hback. rewrite setFields_app.
  change ((k, v) :: back) with ([(k, v)] ++ back)%list.
  rewrite setFields_app, (lookup_setFields_other _ _ _ Hback).
  unfold setFields. cbn [fold_left fst snd]. apply JsFacts.lookup_assign_same.
Qed.


End UpdateFacts.

(** ** The first match of a query *)

Module QueryFacts.

Import Mongoose.

Section Split.

Context (p : Js.object -> bool).

Lemma filter_cons_find ds d rest :
  List.filter p ds = d :: rest -> List.find p ds = Some d.
Proof.
  induction ds as [| x l IH]; [discriminate |]. simpl.
  destruct (p x); [now intros [= -> _] | exact IH].
Qed.

(** Where the first match sits, given what the query selects. *)
Lemma splitFirst_selected ds d rest :
  List.filter p ds = d :: rest ->
  exists before after,
    splitFirst p ds = Some (before, d, after)
    /\ ds = (before ++ d :: after)%list
    /\ List.filter p before = []
    /\ List.filter p after = rest.
Proof.
  induction ds as [| x l IH]; [discriminate |]. simpl.
  destruct (p x) eqn:Hx.
  - intros [= -> <-]. exists [], l. auto.
  - intros H. destruct (IH H) as (before & after & -> & -> & Hb & Ha).
    exists (x :: before), after. simpl. rewrite Hx. auto.
Qed.

Lemma splitFirst_middle before d after :
  List.filter p before = [] -> p d = true ->
  splitFirst p (before ++ d :: after)%list = Some (before, d, after).
Proof.
  induction before as [| x l IH]; simpl; intros Hb Hd.
  - now rewrite Hd.
  - destruct (p x); [discriminate |]. now rewrite IH.
Qed.

Lemma filter_without before after :
  List.filter p before = [] ->
  List.filter p (before ++ after)%list = List.filter p after.
Proof. intros Hb. now rewrite filter_app, Hb. Qed.

End Split.

(** The empty filter selects every document. *)
Lemma filter_matches_all ds : List.filter (matches []) ds = ds.
Proof. induction ds as [| d l IH]; simpl; [| rewrite IH]; reflexivity. Qed.


End QueryFacts.

(** ** More on the repository *)

Module RepositoryMore.

Import Mongoose Store Samples ReservationSamples.

Lemma selected_cast q c ds :
  selected q c = Some ds ->
  exists f, castFilter q = inr f /\ List.filter (matches f) (docs c) = ds.
Proof.
  unfold selected. destruct (castFilter q) as [e | f]; [discriminate |].
  intros [= <-]. eauto.
Qed.

(** The first match is removed and returned. *)
Lemma findOneAndDelete_first q f c d rest :
  reachable c -> castFilter q = inr f ->
  List.filter (matches f) (docs c) = d :: rest ->
  exists before after,
    docs c = (before ++ d :: after)%list
    /\ List.filter (matches f) before = []
    /\ List.filter (matches f) after = rest
    /\ AbstractRepository.findOneAndDelete q c
       = (Resolved d,
          mkCollection (before ++ after) (nextObjectId c) (outages c)).
Proof.
  intros Hr Hcast Hsel.
  destruct (QueryFacts.splitFirst_selected _ _ _ _ Hsel)
    as (before & after & Hsplit & Hdocs & Hb & Ha).
  exists before, after. repeat split; auto.
  unfold AbstractRepository.findOneAndDelete, await,
    Mongoose.findOneAndDelete, casting.
  now rewrite Hcast, (MongooseFacts.exchange_reachable _ c Hr), Hsplit.
Qed.

(** The first match is updated where it stands and returned as updated. *)
Lemma findOneAndUpdate_first schema q f update fields c d rest :
  reachable c -> castFilter q = inr f ->
  castFields schema (set_ update) = Some fields ->
  List.filter (matches f) (docs c) = d :: rest ->
  Js.value_eqb (Js.lookup "_id" (setFields fields d))
               (Js.lookup "_id" d) = true ->
  exists before after,
    docs c = (before ++ d :: after)%list
    /\ List.filter (matches f) before = []
    /\ List.filter (matches f) after = rest
    /\ AbstractRepository.findOneAndUpdate schema q update c
       = (Resolved (setFields fields d),
          mkCollection (before ++ setFields fields d :: after)
                       (nextObjectId c) (outages c)).
Proof.
  intros Hr Hcast Hfields Hsel Hid.
  destruct (QueryFacts.splitFirst_selected _ _ _ _ Hsel)
    as (before & after & Hsplit & Hdocs & Hb & Ha).
  exists before, after. repeat split; auto.
  unfold AbstractRepository.findOneAndUpdate, await,
    Mongoose.findOneAndUpdate, casting.
  now rewrite Hcast, Hfields, (MongooseFacts.exchange_reachable _ c Hr),
    Hsplit, Hid.
Qed.

(** X1. [findOne] answers with the first of the documents [find] answers
    with, in store order, and with the NotFoundException exactly when
    [find] answers with none; a filter that is refused is refused by
    both. *)
Theorem findOne_is_first_of_find q c :
  reachable c ->
  match AbstractRepository.find q c with
  | (Resolved ds, c') =>
      c' = c /\ selected q c = Some ds
      /\ AbstractRepository.findOne q c
         = match ds with
           | [] => (Rejected notFound, c)
           | d :: _ => (Resolved d, c)
           end
  | (Rejected e, c') =>
      c' = c /\ AbstractRepository.findOne q c = (Rejected e, c)
  end.
Proof.
  intros Hr.
  unfold AbstractRepository.find, AbstractRepository.findOne, await,
    Mongoose.find, Mongoose.findOne, casting, selected.
  destruct (castFilter q) as [e | f]; [now split |].
  rewrite !(MongooseFacts.exchange_reachable _ c Hr).
  repeat split.
  destruct (List.filter (matches f) (docs c)) as [| d rest] eqn:Hsel.
  - now rewrite (ListFacts.filter_nil_find _ _ Hsel).
  - now rewrite (QueryFacts.filter_cons_find _ _ _ _ Hsel).
Qed.

Lemma findOne_is_first_of_find_witness :
  AbstractRepository.find [("userId", Js.VStr "0x7")] sampleReservations
  = (Resolved (docs sampleReservations), sampleReservations)
  /\ AbstractRepository.findOne [("userId", Js.VStr "0x7")]
       sampleReservations
     = (Resolved (hd [] (docs sampleReservations)), sampleReservations).
Proof.
  pose proof (findOne_is_first_of_find [("userId", Js.VStr "0x7")]
                sampleReservations eq_refl) as H.
  cbv in H. destruct H as (_ & _ & H). split; [reflexivity | exact H].
Defined.

(** X2. [findOneAndDelete] removes the first document the filter selects and
    nothing else, and answers with it; afterwards the filter selects what
    it selected before less that document, so that a lookup with the same
    filter is a NotFoundException when it was the only match. *)
Theorem findOneAndDelete_removes_first q c d rest :
  reachable c -> selected q c = Some (d :: rest) ->
  exists before after c',
    docs c = (before ++ d :: after)%list
    /\ docs c' = (before ++ after)%list
    /\ AbstractRepository.findOneAndDelete q c = (Resolved d, c')
    /\ selected q c' = Some rest
    /\ AbstractRepository.findOne q c'
       = match rest with
         | [] => (Rejected notFound, c')
         | next :: _ => (Resolved next, c')
         end.
Proof.
  intros Hr Hsel.
  destruct (selected_cast _ _ _ Hsel) as (f & Hcast & Hf).
  destruct (findOneAndDelete_first q f c d rest Hr Hcast Hf)
    as (before & after & Hdocs & Hb & Ha & Hdel).
  exists before, after,
    (mkCollection (before ++ after) (nextObjectId c) (outages c)).
  assert (Hsel' : selected q (mkCollection (before ++ after)
                                (nextObjectId c) (outages c)) = Some rest).
  { unfold selected. rewrite Hcast. cbn [docs].
    now rewrite (QueryFacts.filter_without _ _ _ Hb), Ha. }
  repeat split; auto.
  apply RepositoryFacts.findOne_selected; [exact Hr | exact Hsel'].
Qed.

Lemma findOneAndDelete_removes_first_witness :
  exists c',
    AbstractRepository.findOneAndDelete [("placeId", Js.VStr "p1")]
      sampleReservations
    = (Resolved (hd [] (docs sampleReservations)), c')
    /\ docs c' = tl (docs sampleReservations)
    /\ AbstractRepository.findOne [("placeId", Js.VStr "p1")] c'
       = (Rejected notFound, c').
Proof.
  destruct (findOneAndDelete_removes_first [("placeId", Js.VStr "p1")]
              sampleReservations (hd [] (docs sampleReservations)) []
              eq_refl eq_refl)
    as (before & after & c' & Hdocs & Hdocs' & Hdel & _ & Hfind).
  exists c'. split; [exact Hdel |]. split; [| exact Hfind].
  destruct before as [| x before].
  - cbn in Hdocs. injection Hdocs as Hafter. now rewrite Hdocs', <- Hafter.
  - exfalso. cbn in Hdocs. injection Hdocs as Hx Hrest.
    destruct before as [| y before]; cbn in Hrest.
    + injection Hrest as Hd _. discriminate Hd.
    + injection Hrest as _ Hrest. destruct before; discriminate Hrest.
Defined.

End RepositoryMore.

(** ** Updates and failures of the store *)

Module RepositoryUpdates.

Import Mongoose Store Samples ReservationSamples.

Lemma id_kept fields d :
  names "_id" fields = false ->
  Js.value_eqb (Js.lookup "_id" (setFields fields d)) (Js.lookup "_id" d)
  = true.
Proof.
  intros H. rewrite (UpdateFacts.lookup_setFields_other _ _ _ H).
  apply UpdateFacts.value_eqb_refl.
Qed.

(** What the model sends for an update names no field the update does
    not name. *)
Lemma cast_not_named schema update fields k :
  castFields schema update = Some fields ->
  names k update = false \/ pathOf schema k = None ->
  names k fields = false.
Proof.
  intros Hfields Hk. destruct (names k fields) eqn:Hn; [| reflexivity].
  destruct (SchemaFacts.castFields_names _ _ _ _ Hfields Hn) as [Hu Hp].
  destruct Hk; congruence.
Qed.

(** X3. [findOneAndUpdate] with an update that does not name [_id] rewrites
    the first document the filter selects, in its place, and answers with
    the rewritten document.  What is written are the fields of the update
    as the model casts them: they are fields the update names and the
    schema has, each with the value its path makes of the value given.  A
    field written has the value of the last entry for it; every other
    field, so every field the update does not name and every field the
    schema does not have, is what it was. *)
Theorem findOneAndUpdate_sets_fields schema q update fields c d rest :
  reachable c -> selected q c = Some (d :: rest) ->
  castFields schema (set_ update) = Some fields ->
  names "_id" (set_ update) = false ->
  exists before after c',
    docs c = (before ++ d :: after)%list
    /\ docs c' = (before ++ setFields fields d :: after)%list
    /\ AbstractRepository.findOneAndUpdate schema q update c
       = (Resolved (setFields fields d), c')
    /\ (forall k,
           names k (set_ update) = false \/ pathOf schema k = None ->
           Js.lookup k (setFields fields d) = Js.lookup k d)
    /\ (forall k p,
           pathOf schema k = Some p ->
           castTo p (Js.lookup k (set_ update)) (Js.lookup k fields))
    /\ (forall front k v back,
           fields = (front ++ (k, v) :: back)%list ->
           names k back = false ->
           Js.lookup k (setFields fields d) = v).
Proof.
  intros Hr Hsel Hfields Hid.
  destruct (RepositoryMore.selected_cast _ _ _ Hsel) as (f & Hcast & Hf).
  assert (Hid' : names "_id" fields = false).
  { apply (cast_not_named _ _ _ _ Hfields). now left. }
  destruct (RepositoryMore.findOneAndUpdate_first schema q f update fields
              c d rest Hr Hcast Hfields Hf (id_kept _ d Hid'))
    as (before & after & Hdocs & _ & _ & Hupdate).
  exists before, after,
    (mkCollection (before ++ setFields fields d :: after)
                  (nextObjectId c) (outages c)).
  repeat split; auto.
  - intros k Hk. apply UpdateFacts.lookup_setFields_other.
    exact (cast_not_named _ _ _ _ Hfields Hk).
  - intros k p Hp.
    exact (proj1 (SchemaFacts.castFields_lookup _ _ _ _ _ Hfields Hp)).
  - intros front k v back -> Hback.
    now apply UpdateFacts.lookup_setFields_last.
Qed.

Lemma findOneAndUpdate_sets_fields_witness :
  exists updated c',
    AbstractRepository.findOneAndUpdate sampleReservationSchema
      [("placeId", Js.VStr "p2")]
      (mkUpdate [("endDate", Js.VNum 450); ("note", Js.VStr "late")])
      sampleReservations
    = (Resolved updated, c')
    /\ Js.lookup "endDate" updated = Js.VNum 450
    /\ Js.lookup "note" updated = Js.VUndefined
    /\ Js.lookup "startDate" updated = Js.VNum 300
    /\ Js.lookup "userId" updated = Js.VStr "0x7".
Proof.
  destruct (findOneAndUpdate_sets_fields sampleReservationSchema
              [("placeId", Js.VStr "p2")]
              (mkUpdate [("endDate", Js.VNum 450); ("note", Js.VStr "late")])
              [("endDate", Js.VNum 450)] sampleReservations
              (hd [] (tl (docs sampleReservations))) []
              eq_refl eq_refl eq_refl eq_refl)
    as (before & after & c' & _ & _ & Hupdate & Hkept & _ & Hset).
  eexists _, c'. split; [exact Hupdate |]. split; [| split; [| split]].
  - exact (Hset [] "endDate" (Js.VNum 450) [] eq_refl eq_refl).
  - exact (Hkept "note" (or_intror eq_refl)).
  - exact (Hkept "startDate" (or_introl eq_refl)).
  - exact (Hkept "userId" (or_introl eq_refl)).
Defined.



(** X5. When the round trip to the server fails, every operation of the
    repository rejects with the failure of the driver, not with the
    NotFoundException, and the stored documents are what they were.  This
    for what reaches the round trip: a filter and an update the model
    casts, and a document the schema accepts. *)
Theorem outage_is_not_NotFound schema q f update document ds next e later :
  castFilter q = inr f ->
  AbstractRepository.findOne q (mkCollection ds next (Some e :: later))
  = (Rejected e, mkCollection ds next later)
  /\ (castFields schema (set_ update) <> None ->
      AbstractRepository.findOneAndUpdate schema q update
        (mkCollection ds next (Some e :: later))
      = (Rejected e, mkCollection ds next later))
  /\ AbstractRepository.findOneAndDelete q
       (mkCollection ds next (Some e :: later))
     = (Rejected e, mkCollection ds next later)
  /\ AbstractRepository.find q (mkCollection ds next (Some e :: later))
     = (Rejected e, mkCollection ds next later)
  /\ (forall created,
         validated schema (Js.assign "_id" (Js.VOid next) document)
         = inr created ->
         AbstractRepository.create schema document
           (mkCollection ds next (Some e :: later))
         = (Rejected e, mkCollection ds (N.succ next) later)).
Proof.
  intros Hcast.
  unfold AbstractRepository.findOne, AbstractRepository.findOneAndUpdate,
    AbstractRepository.findOneAndDelete, AbstractRepository.find,
    AbstractRepository.create, await, Mongoose.findOne,
    Mongoose.findOneAndUpdate, Mongoose.findOneAndDelete, Mongoose.find,
    save, newObjectId, casting.
  rewrite Hcast, !MongooseFacts.exchange_outage.
  cbn [docs nextObjectId outages].
  split; [reflexivity |]. split; [| split; [reflexivity |]].
  - destruct (castFields schema (set_ update)); [| congruence].
    intros _. cbv beta iota. now rewrite MongooseFacts.exchange_outage.
  - split; [reflexivity |]. intros created ->. cbv beta iota.
    now rewrite MongooseFacts.exchange_outage.
Qed.

Lemma outage_is_not_NotFound_witness :
  AbstractRepository.findOne [("_id", Js.VStr "0x0")]
    sampleReservationsOffline
  = (Rejected (JsError "MongoNetworkError" "connection timed out"),
     sampleReservations)
  /\ AbstractRepository.find [] sampleReservationsOffline
     = (Rejected (JsError "MongoNetworkError" "connection timed out"),
        sampleReservations)
  /\ AbstractRepository.findOneAndUpdate sampleReservationSchema
       [("_id", Js.VStr "0x0")] (mkUpdate [("endDate", Js.VNum 450)])
       sampleReservationsOffline
     = (Rejected (JsError "MongoNetworkError" "connection timed out"),
        sampleReservations).
Proof.
  destruct (outage_is_not_NotFound sampleReservationSchema
              [("_id", Js.VStr "0x0")] [("_id", Js.VOid 0)]
              (mkUpdate [("endDate", Js.VNum 450)]) []
              (docs sampleReservations) 2
              (JsError "MongoNetworkError" "connection timed out") []
              eq_refl) as (Hfind & Hupdate & _).
  destruct (outage_is_not_NotFound sampleReservationSchema [] []
              (mkUpdate []) []
              (docs sampleReservations) 2
              (JsError "MongoNetworkError" "connection timed out") []
              eq_refl) as (_ & _ & _ & Hall & _).
  split; [exact Hfind |]. split; [exact Hall |].
  apply Hupdate. discriminate.
Defined.

End RepositoryUpdates.

(** ** Stores with distinct ids *)

Module StoreFacts.

Import Mongoose Store Samples ReservationSamples.

(** What each operation can do to the documents, whatever it answers. *)
Lemma findOne_docs q c r c' :
  AbstractRepository.findOne q c = (r, c') ->
  docs c' = docs c /\ nextObjectId c' = nextObjectId c.
Proof.
  unfold AbstractRepository.findOne, await, Mongoose.findOne, casting,
    exchange, throw, resolve.
  destruct (castFilter q) as [e | f]; [now intros [= <- <-] |].
  destruct c as [ds next [| [e |] later]]; cbn;
    try destruct (List.find (matches f) ds); now intros [= <- <-].
Qed.

Lemma find_docs q c r c' :
  AbstractRepository.find q c = (r, c') ->
  docs c' = docs c /\ nextObjectId c' = nextObjectId c.
Proof.
  unfold AbstractRepository.find, await, Mongoose.find, casting,
    exchange, throw, resolve.
  destruct (castFilter q) as [e | f]; [now intros [= <- <-] |].
  destruct c as [ds next [| [e |] later]]; cbn; now intros [= <- <-].
Qed.

Lemma create_docs schema document c r c' :
  AbstractRepository.create schema document c = (r, c') ->
  nextObjectId c' = N.succ (nextObjectId c)
  /\ (docs c' = docs c
      \/ exists created,
          docs c' = (docs c ++ [created])%list
          /\ Js.lookup "_id" created = Js.VOid (nextObjectId c)).
Proof.
  unfold AbstractRepository.create, await, newObjectId, save.
  cbn [nextObjectId].
  destruct (validated schema
              (Js.assign "_id" (Js.VOid (nextObjectId c)) document))
    as [e | created] eqn:Hcreated.
  { unfold throw. intros [= <- <-]. cbn. auto. }
  pose proof (SchemaFacts.validated_id _ _ _ _ Hcreated
                (JsFacts.lookup_assign_same _ _ _)) as Hid.
  unfold exchange, resolve. cbn [outages docs nextObjectId].
  destruct (outages c) as [| [e |] later];
    try destruct (existsb _ (docs c)); intros [= <- <-]; cbn; eauto.
Qed.

Lemma findOneAndDelete_docs q c r c' :
  AbstractRepository.findOneAndDelete q c = (r, c') ->
  nextObjectId c' = nextObjectId c
  /\ (docs c' = docs c
      \/ exists before d after,
          docs c = (before ++ d :: after)%list
          /\ docs c' = (before ++ after)%list).
Proof.
  unfold AbstractRepository.findOneAndDelete, await,
    Mongoose.findOneAndDelete, casting, exchange, throw, resolve.
  destruct (castFilter q) as [e | f]; [intros [= <- <-]; auto |].
  destruct c as [ds next [| [e |] later]]; cbn [docs nextObjectId outages];
    try (intros [= <- <-]; now auto);
    pose proof (ListFacts.splitFirst_find (matches f) ds) as Hsplit;
    (destruct (splitFirst (matches f) ds) as [[[before d] after] |];
     intros [= <- <-]; cbn; split; auto;
     destruct Hsplit as (_ & Hds & _); right; eauto).
Qed.

Lemma findOneAndUpdate_docs schema q update c r c' :
  AbstractRepository.findOneAndUpdate schema q update c = (r, c') ->
  nextObjectId c' = nextObjectId c
  /\ (docs c' = docs c
      \/ exists before d d' after,
          docs c = (before ++ d :: after)%list
          /\ docs c' = (before ++ d' :: after)%list
          /\ Js.value_eqb (Js.lookup "_id" d') (Js.lookup "_id" d) = true).
Proof.
  unfold AbstractRepository.findOneAndUpdate, await,
    Mongoose.findOneAndUpdate, casting, exchange, throw, resolve.
  destruct (castFilter q) as [e | f]; [intros [= <- <-]; auto |].
  destruct (castFields schema (set_ update)) as [fields |];
    [| intros [= <- <-]; auto].
  destruct c as [ds next [| [e |] later]]; cbn [docs nextObjectId outages];
    try (intros [= <- <-]; now auto);
    pose proof (ListFacts.splitFirst_find (matches f) ds) as Hsplit;
    (destruct (splitFirst (matches f) ds) as [[[before d] after] |];
     [| intros [= <- <-]; now auto];
     destruct (Js.value_eqb (Js.lookup "_id" (setFields fields d))
                            (Js.lookup "_id" d)) eqn:Hid;
     intros [= <- <-]; cbn; split; auto;
     destruct Hsplit as (_ & Hds & _); right;
     exists before, d, (setFields fields d), after; auto).
Qed.

Lemma issued_id next d :
  issued next d = true ->
  exists n, Js.lookup "_id" d = Js.VOid n /\ (n < next)%N.
Proof.
  unfold issued. destruct (Js.lookup "_id" d); try discriminate.
  intros H. apply N.ltb_lt in H. eauto.
Qed.

(** In a store with distinct ids a lookup by id selects one document. *)
Lemma distinct_selects_one ds d n :
  NoDup (List.map (Js.lookup "_id") ds) ->
  In d ds -> Js.lookup "_id" d = Js.VOid n ->
  List.filter (matches [("_id", Js.VOid n)]) ds = [d].
Proof.
  induction ds as [| x l IH]; [contradiction |].
  cbn [List.map filter]. intros Hnd Hin Hid.
  apply NoDup_cons_iff in Hnd as [Hx Hl].
  rewrite MongooseFacts.matches_id.
  destruct Hin as [-> | Hin].
  - rewrite Hid. cbn [Js.value_eqb]. rewrite N.eqb_refl. f_equal.
    apply ListFacts.find_none_filter.
    destruct (List.find (matches [("_id", Js.VOid n)]) l) as [y |] eqn:Hy;
      [| reflexivity].
    apply find_some in Hy as [Hyl Hym].
    rewrite MongooseFacts.matches_id in Hym.
    apply UpdateFacts.value_eqb_oid_l in Hym.
    exfalso. apply Hx. rewrite Hid, <- Hym. now apply in_map.
  - destruct (Js.value_eqb (Js.VOid n) (Js.lookup "_id" x)) eqn:Hxn.
    + apply UpdateFacts.value_eqb_oid_l in Hxn.
      exfalso. apply Hx. rewrite Hxn, <- Hid. now apply in_map.
    + now apply IH.
Qed.

(** X6. Every operation of the repository, whatever the schema of its
    model, whatever it answers and whether or not the server could be
    reached, leaves a consistent store consistent: the ids stay issued
    and pairwise distinct; and the two lookups leave the documents as
    they are. *)
Theorem repository_keeps_consistent schema c :
  consistent c ->
  (forall document r c',
      AbstractRepository.create schema document c = (r, c') ->
      consistent c')
  /\ (forall q r c',
         AbstractRepository.findOne q c = (r, c') ->
         consistent c' /\ docs c' = docs c)
  /\ (forall q r c',
         AbstractRepository.find q c = (r, c') ->
         consistent c' /\ docs c' = docs c)
  /\ (forall q update r c',
         AbstractRepository.findOneAndUpdate schema q update c = (r, c') ->
         consistent c')
  /\ (forall q r c',
         AbstractRepository.findOneAndDelete q c = (r, c') ->
         consistent c').
Proof.
  intros [Hwf Hnd]. unfold consistent, distinctIds, ids in *.
  repeat split.
  - eapply InvariantFacts.create_wellFormed; eauto.
  - destruct (create_docs _ _ _ _ _ H)
      as [_ [-> | (created & -> & Hid)]]; [exact Hnd |].
    rewrite map_app. apply NoDup_app; [exact Hnd | |].
    + cbn. constructor; [intros [] | constructor].
    + cbn. rewrite Hid.
      intros v Hv [<- | []]. apply in_map_iff in Hv as (d & Hd & Hin).
      unfold wellFormed in Hwf. rewrite forallb_forall in Hwf.
      destruct (issued_id _ _ (Hwf d Hin)) as (n & Hn & Hlt).
      rewrite Hn in Hd. injection Hd as Hd. lia.
  - eapply InvariantFacts.findOne_wellFormed; eauto.
  - destruct (findOne_docs _ _ _ _ H) as [-> _]. exact Hnd.
  - now destruct (findOne_docs _ _ _ _ H).
  - eapply InvariantFacts.find_wellFormed; eauto.
  - destruct (find_docs _ _ _ _ H) as [-> _]. exact Hnd.
  - now destruct (find_docs _ _ _ _ H).
  - eapply InvariantFacts.findOneAndUpdate_wellFormed; eauto.
  - destruct (findOneAndUpdate_docs _ _ _ _ _ _ H)
      as [_ [-> | (before & d & d' & after & Hc & -> & Hid)]];
      [exact Hnd |].
    unfold wellFormed in Hwf. rewrite Hc, forallb_app in Hwf.
    rewrite Hc in Hnd. rewrite map_app in *. cbn [List.map] in *.
    apply andb_true_iff in Hwf as [_ Hwf]. cbn [forallb] in Hwf.
    apply andb_true_iff in Hwf as [Hd _].
    destruct (issued_id _ _ Hd) as (n & Hn & _). rewrite Hn in Hid, Hnd.
    now rewrite (InvariantFacts.value_eqb_oid _ _ Hid).
  - eapply InvariantFacts.findOneAndDelete_wellFormed; eauto.
  - destruct (findOneAndDelete_docs _ _ _ _ H)
      as [_ [-> | (before & d & after & Hc & ->)]]; [exact Hnd |].
    rewrite Hc in Hnd. rewrite map_app in *. cbn [List.map] in Hnd.
    eapply NoDup_remove_1; eauto.
Qed.

End StoreFacts.

(** ** Reservations *)

Module ReservationFacts.

Import Mongoose Store Samples ReservationSamples.

Lemma sampleReservations_consistent : consistent sampleReservations.
Proof.
  split; [reflexivity |].
  unfold distinctIds, ids. cbn.
  repeat constructor; cbn; intuition discriminate.
Qed.

Lemma repository_keeps_consistent_witness :
  consistent (snd (AbstractRepository.create sampleReservationSchema
                     (("userId", Js.VStr "0x7") :: sampleDto)
                     sampleReservations))
  /\ consistent (snd (AbstractRepository.findOneAndDelete
                        [("_id", Js.VStr "0x0")] sampleReservations))
  /\ consistent (snd (AbstractRepository.findOneAndUpdate
                        sampleReservationSchema
                        [("_id", Js.VStr "0x1")]
                        (mkUpdate [("endDate", Js.VNum 450)])
                        sampleReservationsOffline)).
Proof.
  destruct (StoreFacts.repository_keeps_consistent sampleReservationSchema
              sampleReservations sampleReservations_consistent)
    as (Hcreate & _ & _ & _ & Hdelete).
  destruct (StoreFacts.repository_keeps_consistent sampleReservationSchema
              sampleReservationsOffline sampleReservations_consistent)
    as (_ & _ & _ & Hupdate & _).
  split; [| split].
  - eapply Hcreate. apply surjective_pairing.
  - eapply Hdelete. apply surjective_pairing.
  - eapply Hupdate. apply surjective_pairing.
Defined.

Lemma castFilter_id id n :
  castObjectId id = Some n ->
  castFilter [("_id", Js.VStr id)] = inr [("_id", Js.VOid n)].
Proof. intros H. cbn [castFilter]. now rewrite String.eqb_refl, H. Qed.

Lemma selected_id id n c d :
  distinctIds c -> castObjectId id = Some n ->
  In d (docs c) -> Js.lookup "_id" d = Js.VOid n ->
  castFilter [("_id", Js.VStr id)] = inr [("_id", Js.VOid n)]
  /\ List.filter (matches [("_id", Js.VOid n)]) (docs c) = [d].
Proof.
  intros Hnd Hid Hin Hd. split; [now apply castFilter_id |].
  now apply StoreFacts.distinct_selects_one.
Qed.

(** X7. A reservation is handed to the model with the fields of the DTO,
    the time of the call as [timestamp] and the caller's [userId] (both
    overriding what the DTO may carry under these names) and a new
    [_id].  When the schema accepts it, it is stored as the schema
    casts it: under each path the value given for it, as the path
    casts it, and nothing under a name the schema does not have; it is
    then the last of what [findAll] answers, and [findOne] with the hex
    string of its id answers with it.  When the schema refuses it, for a
    required path without a value or a value that cannot be cast,
    [create] rejects with the ValidationError and nothing is stored. *)
Theorem reservation_created schema now dto userId c :
  reachable c -> wellFormed c = true ->
  let given := Js.assign "userId" userId (Js.assign "timestamp" now dto) in
  match validated schema (Js.assign "_id" (Js.VOid (nextObjectId c)) given)
  with
  | inr created =>
      exists c',
        ReservationsService.create schema now dto userId c
        = (Resolved created, c')
        /\ docs c' = (docs c ++ [created])%list
        /\ Js.lookup "_id" created = Js.VOid (nextObjectId c)
        /\ (forall p,
               pathOf schema "userId" = Some p ->
               castTo p userId (Js.lookup "userId" created))
        /\ (forall p,
               pathOf schema "timestamp" = Some p ->
               castTo p now (Js.lookup "timestamp" created))
        /\ (forall k p,
               k <> "_id" -> k <> "userId" -> k <> "timestamp" ->
               pathOf schema k = Some p ->
               castTo p (Js.lookup k dto) (Js.lookup k created))
        /\ (forall k,
               pathOf schema k = None -> Js.lookup k created = Js.VUndefined)
        /\ ReservationsService.findAll c'
           = (Resolved (docs c ++ [created])%list, c')
        /\ ReservationsService.findOne (toHexString (nextObjectId c)) c'
           = (Resolved created, c')
  | inl e =>
      ReservationsService.create schema now dto userId c
      = (Rejected e,
         mkCollection (docs c) (N.succ (nextObjectId c)) (outages c))
  end.
Proof.
  intros Hr Hwf given.
  destruct (validated schema
              (Js.assign "_id" (Js.VOid (nextObjectId c)) given))
    as [e | created] eqn:Hcreated.
  { exact (RepositoryFacts.create_refused _ _ _ c Hcreated). }
  destruct (MongooseFacts.wellFormed_no_next c Hwf) as [Hnone _].
  pose proof (SchemaFacts.validated_id _ _ _ _ Hcreated
                (JsFacts.lookup_assign_same _ _ _)) as Hid.
  destruct (SchemaFacts.validated_fields _ _ _ Hcreated)
    as (Hstrict & Hto & _).
  set (c' := mkCollection (docs c ++ [created])
                          (N.succ (nextObjectId c)) []).
  assert (Hr' : reachable c') by reflexivity.
  exists c'. split.
  { exact (RepositoryFacts.create_reachable _ _ _ c Hr Hwf Hcreated). }
  split; [reflexivity |]. split; [exact Hid |].
  split.
  { intros p Hp. specialize (Hto _ _ Hp). unfold given in Hto.
    rewrite JsFacts.lookup_assign_other in Hto by discriminate.
    now rewrite JsFacts.lookup_assign_same in Hto. }
  split.
  { intros p Hp. specialize (Hto _ _ Hp). unfold given in Hto.
    rewrite !JsFacts.lookup_assign_other in Hto by discriminate.
    now rewrite JsFacts.lookup_assign_same in Hto. }
  split.
  { intros k p H1 H2 H3 Hp. specialize (Hto _ _ Hp). unfold given in Hto.
    now rewrite !JsFacts.lookup_assign_other in Hto. }
  split; [exact Hstrict |].
  split.
  - unfold ReservationsService.findAll, AbstractRepository.find, await,
      Mongoose.find, casting. cbn [castFilter].
    rewrite (MongooseFacts.exchange_reachable _ _ Hr').
    cbn [docs c']. now rewrite QueryFacts.filter_matches_all.
  - unfold ReservationsService.findOne.
    rewrite (RepositoryFacts.findOne_cast _ _ _ Hr'
               (MongooseFacts.castFilter_hex (nextObjectId c))).
    cbn [docs c'].
    rewrite (ListFacts.find_app_skip _ _ _ Hnone); [reflexivity |].
    rewrite MongooseFacts.matches_id, Hid. apply N.eqb_refl.
Qed.

Lemma reservation_created_witness :
  (exists created c',
      ReservationsService.create sampleReservationSchema (Js.VNum 70)
        (sampleDto ++ [("charge", Js.VObj [("amount", Js.VNum 5)])])%list
        (Js.VStr "0x7") sampleReservations = (Resolved created, c')
      /\ Js.lookup "_id" created = Js.VOid 2
      /\ Js.lookup "userId" created = Js.VStr "0x7"
      /\ Js.lookup "placeId" created = Js.VStr "p3"
      /\ Js.lookup "charge" created = Js.VUndefined
      /\ ReservationsService.findOne "0x2" c' = (Resolved created, c'))
  /\ ReservationsService.create sampleReservationSchema (Js.VNum 70)
       sampleDto Js.VUndefined sampleReservations
     = (Rejected (JsError "ValidationError" "Validation failed"),
        mkCollection (docs sampleReservations) 3 []).
Proof.
  split.
  - pose proof (reservation_created sampleReservationSchema (Js.VNum 70)
                  (sampleDto
                     ++ [("charge", Js.VObj [("amount", Js.VNum 5)])])%list
                  (Js.VStr "0x7") sampleReservations eq_refl eq_refl) as H.
    cbv zeta in H.
    change (validated _ _)
      with (@inr Exception Js.object
              [("startDate", Js.VNum 500); ("endDate", Js.VNum 600);
               ("placeId", Js.VStr "p3"); ("invoiceId", Js.VStr "i3");
               ("timestamp", Js.VNum 70); ("userId", Js.VStr "0x7");
               ("_id", Js.VOid 2)]) in H.
    destruct H as (c' & Hcreate & _ & Hid & _ & _ & _ & _ & _ & Hfind).
    eexists _, c'. split; [exact Hcreate |]. repeat split.
    exact Hfind.
  - exact (reservation_created sampleReservationSchema (Js.VNum 70)
             sampleDto Js.VUndefined sampleReservations eq_refl eq_refl).
Defined.

(** X8. In a consistent store, [update] with the id of a stored reservation
    and a DTO that does not name [_id] answers with that reservation as
    updated.  What is written are the fields of the DTO as the model
    casts them, so fields the schema has, each with the value its path
    makes of the value given: a field written has the value of the last
    entry for it, and every other field, so every field the DTO does not
    name and every field the schema does not have, is what it was.
    [findOne] with the same id then answers with the updated
    reservation, and no other reservation has changed. *)
Theorem reservation_updated schema id n dto fields c d :
  reachable c -> consistent c -> castObjectId id = Some n ->
  In d (docs c) -> Js.lookup "_id" d = Js.VOid n ->
  castFields schema dto = Some fields ->
  names "_id" dto = false ->
  exists before after c',
    docs c = (before ++ d :: after)%list
    /\ docs c' = (before ++ setFields fields d :: after)%list
    /\ ReservationsService.update schema id dto c
       = (Resolved (setFields fields d), c')
    /\ ReservationsService.findOne id c' = (Resolved (setFields fields d), c')
    /\ (forall k,
           names k dto = false \/ pathOf schema k = None ->
           Js.lookup k (setFields fields d) = Js.lookup k d)
    /\ (forall k p,
           pathOf schema k = Some p ->
           castTo p (Js.lookup k dto) (Js.lookup k fields))
    /\ (forall front k v back,
           fields = (front ++ (k, v) :: back)%list -> names k back = false ->
           Js.lookup k (setFields fields d) = v).
Proof.
  intros Hr [_ Hnd] Hid Hin Hd Hfields Hdto.
  assert (Hdto' : names "_id" fields = false).
  { apply (RepositoryUpdates.cast_not_named _ _ _ _ Hfields). now left. }
  destruct (selected_id id n c d Hnd Hid Hin Hd) as [Hcast Hsel].
  destruct (RepositoryMore.findOneAndUpdate_first schema _ _ (mkUpdate dto)
              fields c d [] Hr Hcast Hfields Hsel
              (RepositoryUpdates.id_kept _ d Hdto'))
    as (before & after & Hdocs & Hb & Ha & Hupdate).
  set (c' := mkCollection (before ++ setFields fields d :: after)
                          (nextObjectId c) (outages c)).
  assert (Hr' : reachable c') by exact Hr.
  exists before, after, c'.
  split; [exact Hdocs |]. split; [reflexivity |].
  split; [exact Hupdate |]. split; [| split; [| split]].
  - unfold ReservationsService.findOne.
    rewrite (RepositoryFacts.findOne_cast _ _ _ Hr' Hcast). cbn [docs c'].
    assert (Hmatch : matches [("_id", Js.VOid n)] (setFields fields d) = true).
    { rewrite MongooseFacts.matches_id,
        (UpdateFacts.lookup_setFields_other _ _ _ Hdto'), Hd.
      apply N.eqb_refl. }
    pose proof (QueryFacts.splitFirst_middle _ _ _ after Hb Hmatch) as Hs.
    pose proof (ListFacts.splitFirst_find (matches [("_id", Js.VOid n)])
                  (before ++ setFields fields d :: after)) as Hfind.
    rewrite Hs in Hfind. destruct Hfind as [-> _]. reflexivity.
  - intros k Hk. apply UpdateFacts.lookup_setFields_other.
    exact (RepositoryUpdates.cast_not_named _ _ _ _ Hfields Hk).
  - intros k p Hp.
    exact (proj1 (SchemaFacts.castFields_lookup _ _ _ _ _ Hfields Hp)).
  - intros front k v back -> Hback.
    now apply UpdateFacts.lookup_setFields_last.
Qed.

Lemma reservation_updated_witness :
  exists updated c',
    ReservationsService.update sampleReservationSchema "0x1"
      [("endDate", Js.VNum 450); ("note", Js.VStr "late")]
      sampleReservations = (Resolved updated, c')
    /\ ReservationsService.findOne "0x1" c' = (Resolved updated, c')
    /\ Js.lookup "endDate" updated = Js.VNum 450
    /\ Js.lookup "note" updated = Js.VUndefined
    /\ Js.lookup "startDate" updated = Js.VNum 300
    /\ Js.lookup "userId" updated = Js.VStr "0x7".
Proof.
  destruct (reservation_updated sampleReservationSchema "0x1" 1
              [("endDate", Js.VNum 450); ("note", Js.VStr "late")]
              [("endDate", Js.VNum 450)]
              sampleReservations (hd [] (tl (docs sampleReservations)))
              eq_refl sampleReservations_consistent eq_refl
              (or_intror (or_introl eq_refl)) eq_refl eq_refl eq_refl)
    as (before & after & c' & _ & _ & Hupdate & Hfind & Hkept & _ & Hset).
  eexists _, c'. split; [exact Hupdate |]. split; [exact Hfind |].
  split; [| split; [| split]].
  - exact (Hset [] "endDate" (Js.VNum 450) [] eq_refl eq_refl).
  - exact (Hkept "note" (or_intror eq_refl)).
  - exact (Hkept "startDate" (or_introl eq_refl)).
  - exact (Hkept "userId" (or_introl eq_refl)).
Defined.

(** X9. In a consistent store, [remove] with the id of a stored reservation
    answers with it and takes it, and only it, out of the store;
    afterwards [findOne] and a second [remove] with that id are
    NotFoundExceptions. *)
Theorem reservation_removed id n c d :
  reachable c -> consistent c -> castObjectId id = Some n ->
  In d (docs c) -> Js.lookup "_id" d = Js.VOid n ->
  exists before after c',
    docs c = (before ++ d :: after)%list
    /\ docs c' = (before ++ after)%list
    /\ ReservationsService.remove id c = (Resolved d, c')
    /\ ReservationsService.findOne id c' = (Rejected notFound, c')
    /\ ReservationsService.remove id c' = (Rejected notFound, c')
    /\ ReservationsService.findAll c'
       = (Resolved (before ++ after)%list, c').
Proof.
  intros Hr [_ Hnd] Hid Hin Hd.
  destruct (selected_id id n c d Hnd Hid Hin Hd) as [Hcast Hsel].
  destruct (RepositoryMore.findOneAndDelete_first _ _ c d [] Hr Hcast Hsel)
    as (before & after & Hdocs & Hb & Ha & Hdelete).
  set (c' := mkCollection (before ++ after) (nextObjectId c) (outages c)).
  assert (Hr' : reachable c') by exact Hr.
  assert (Hnone : List.filter (matches [("_id", Js.VOid n)]) (docs c') = []).
  { cbn [docs c']. now rewrite (QueryFacts.filter_without _ _ _ Hb). }
  exists before, after, c'.
  split; [exact Hdocs |]. split; [reflexivity |].
  split; [exact Hdelete |]. split; [| split].
  - unfold ReservationsService.findOne.
    rewrite (RepositoryFacts.findOne_cast _ _ _ Hr' Hcast).
    now rewrite (ListFacts.filter_nil_find _ _ Hnone).
  - unfold ReservationsService.remove, AbstractRepository.findOneAndDelete,
      await, Mongoose.findOneAndDelete, casting.
    rewrite Hcast, (MongooseFacts.exchange_reachable _ _ Hr').
    now rewrite (ListFacts.splitFirst_none _ _ Hnone).
  - unfold ReservationsService.findAll, AbstractRepository.find, await,
      Mongoose.find, casting. cbn [castFilter].
    rewrite (MongooseFacts.exchange_reachable _ _ Hr').
    cbn [docs c']. now rewrite QueryFacts.filter_matches_all.
Qed.

Lemma reservation_removed_witness :
  exists c',
    ReservationsService.remove "0x0" sampleReservations
    = (Resolved (hd [] (docs sampleReservations)), c')
    /\ ReservationsService.findOne "0x0" c' = (Rejected notFound, c')
    /\ ReservationsService.remove "0x0" c' = (Rejected notFound, c').
Proof.
  destruct (reservation_removed "0x0" 0 sampleReservations
              (hd [] (docs sampleReservations))
              eq_refl sampleReservations_consistent eq_refl
              (or_introl eq_refl) eq_refl)
    as (before & after & c' & _ & _ & Hremove & Hfind & Hagain & _).
  exists c'. repeat split; assumption.
Defined.

End ReservationFacts.

(** ** Registration, login and token validation, continued *)

Module AuthFacts.

Import Mongoose Store Samples.

Abbreviation unauthorized := (UnauthorizedException (inl "Unauthorized")).

Lemma value_eqb_str s v : Js.value_eqb (Js.VStr s) v = true -> v = Js.VStr s.
Proof.
  destruct v; simpl; try discriminate.
  intros H. apply String.eqb_eq in H. now subst.
Qed.

(** A lookup resolves only with a stored document that the cast filter
    matches, and never changes the documents. *)
Lemma findOne_resolves q c r c' :
  AbstractRepository.findOne q c = (r, c') ->
  docs c' = docs c
  /\ forall d, r = Resolved d ->
       exists f, castFilter q = inr f /\ In d (docs c) /\ matches f d = true.
Proof.
  intros H. split; [exact (proj1 (StoreFacts.findOne_docs _ _ _ _ H)) |].
  intros d ->. revert H.
  unfold AbstractRepository.findOne, await, Mongoose.findOne, casting,
    exchange, throw, resolve.
  destruct (castFilter q) as [e | f]; [discriminate |].
  destruct c as [ds next [| [e |] later]]; cbn [docs outages nextObjectId];
    try discriminate;
    (destruct (List.find (matches f) ds) as [x |] eqn:Hx; [| discriminate];
     intros [= -> _]; apply find_some in Hx; eauto).
Qed.

(** [verifyUser] resolves only with a stored user who has the address
    given and whose stored hash bcrypt accepts, and changes nothing. *)
Lemma verifyUser_outcome bcrypt address secret c :
  match UsersService.verifyUser bcrypt address secret c with
  | (Resolved user, c') =>
      In user (docs c)
      /\ Js.lookup "email" user = Js.VStr address
      /\ (exists stored,
             Js.lookup "password" user = Js.VStr stored
             /\ compare bcrypt secret stored = true)
      /\ docs c' = docs c
  | (Rejected e, c') => docs c' = docs c
  end.
Proof.
  unfold UsersService.verifyUser, await.
  destruct (AbstractRepository.findOne [("email", Js.VStr address)] c)
    as [[user | e] c1] eqn:Hfind;
    destruct (findOne_resolves _ _ _ _ Hfind) as [Hdocs Hres];
    [| exact Hdocs].
  destruct (Hres user eq_refl) as (f & Hcast & Hin & Hmatch).
  cbn in Hcast. injection Hcast as <-.
  unfold matches in Hmatch. cbn in Hmatch. rewrite andb_true_r in Hmatch.
  apply value_eqb_str in Hmatch.
  unfold UsersService.bcrypt_compare, resolve, throw.
  destruct (Js.lookup "password" user) eqn:Hpw; try exact Hdocs.
  destruct (compare bcrypt secret s) eqn:Hcmp; cbn; eauto 8.
Qed.

(** X10. [LocalStrategy.validate] resolves only with a stored user who has
    the address given and whose stored hash bcrypt accepts for the
    password given; every failure, whatever its cause, is an
    UnauthorizedException; and the stored documents are never
    changed. *)
Theorem validate_accepts_only_stored_credentials bcrypt address secret c :
  match LocalStrategy.validate bcrypt address secret c with
  | (Resolved user, c') =>
      In user (docs c)
      /\ Js.lookup "email" user = Js.VStr address
      /\ (exists stored,
             Js.lookup "password" user = Js.VStr stored
             /\ compare bcrypt secret stored = true)
      /\ docs c' = docs c
  | (Rejected e, c') =>
      (exists cause, e = UnauthorizedException (inr cause))
      /\ docs c' = docs c
  end.
Proof.
  pose proof (verifyUser_outcome bcrypt address secret c) as H.
  unfold LocalStrategy.validate, try_catch, throw.
  destruct (UsersService.verifyUser bcrypt address secret c)
    as [[user | e] c']; [exact H | eauto].
Qed.

(** X11. After a registration that went through, the same address cannot be
    registered again: the second call fails with the duplicate-email
    exception and stores nothing, whatever password it brings.  The first
    registration goes through for a user the user schema accepts, one
    whose address and hash are not empty. *)
Theorem second_registration_refused bcrypt createUser other c :
  reachable c -> wellFormed c = true ->
  List.find (matches [("email", Js.VStr (email createUser))]) (docs c)
  = None ->
  email createUser <> "" ->
  hash bcrypt (password createUser) 10 <> "" ->
  email other = email createUser ->
  exists user c1,
    UsersService.register bcrypt createUser c = (Resolved user, c1)
    /\ docs c1 = (docs c ++ [user])%list
    /\ Js.lookup "password" user
       = Js.VStr (hash bcrypt (password createUser) 10)
    /\ UsersService.register bcrypt other c1
       = (Rejected
            (UnprocessableEntityException "Email already exist!"), c1).
Proof.
  intros Hr Hwf Hfree Haddress Hhashed Hsame.
  set (user := [("email", Js.VStr (email createUser));
                ("password", Js.VStr (hash bcrypt (password createUser) 10));
                ("_id", Js.VOid (nextObjectId c))]).
  set (c1 := mkCollection (docs c ++ [user]) (N.succ (nextObjectId c)) []).
  assert (Hr1 : reachable c1) by reflexivity.
  exists user, c1. split; [| split; [reflexivity | split; [reflexivity |]]].
  - unfold UsersService.register, UsersService.validateCreateUserDto,
      await, attempt.
    rewrite (UsersFacts.findOne_byEmail _ c Hr), Hfree.
    exact (RepositoryFacts.create_reachable UserSchema
             [("email", Js.VStr (email createUser));
              ("password", Js.VStr (hash bcrypt (password createUser) 10))]
             user c Hr Hwf
             (SchemaFacts.validated_user _ _ (nextObjectId c)
                Haddress Hhashed)).
  - unfold UsersService.register, UsersService.validateCreateUserDto,
      await, attempt.
    assert (Hfound :
              List.find (matches [("email", Js.VStr (email createUser))])
                        (docs c1) = Some user).
    { apply ListFacts.find_app_skip.
      - now apply ListFacts.find_none_filter.
      - unfold matches. cbn. now rewrite String.eqb_refl. }
    now rewrite Hsame, (UsersFacts.findOne_byEmail _ c1 Hr1), Hfound.
Qed.

Lemma second_registration_refused_witness :
  exists user c1,
    UsersService.register sampleBcrypt
      (mkCreateUserDto "b@x.com" "Secret1!") sampleUsers
    = (Resolved user, c1)
    /\ UsersService.register sampleBcrypt
         (mkCreateUserDto "b@x.com" "Other2!") c1
       = (Rejected
            (UnprocessableEntityException "Email already exist!"), c1).
Proof.
  destruct (second_registration_refused sampleBcrypt
              (mkCreateUserDto "b@x.com" "Secret1!")
              (mkCreateUserDto "b@x.com" "Other2!") sampleUsers
              eq_refl eq_refl eq_refl
              ltac:(discriminate) ltac:(discriminate) eq_refl)
    as (user & c1 & Hfirst & _ & _ & Hsecond).
  exists user, c1. split; assumption.
Defined.

End AuthFacts.

(** ** The login route and the authenticate handler *)

Module AuthRouteFacts.

Import Mongoose Store Samples.

Abbreviation unauthorized := (UnauthorizedException (inl "Unauthorized")).

(** X12. [POST /auth/login] sets the [Authentication] cookie and sends a body
    only when it succeeds, and then for a stored user with the address
    given: the cookie is http-only and holds the token signed for the hex
    string of that user's id, and the body is the stored user document as
    it is, its [password] field included.  When it fails the response is
    left as it was.  In no case are the stored users changed. *)
Theorem login_route bcrypt jwtService address secret c response :
  match AuthLogin.postLogin bcrypt jwtService address secret (c, response)
  with
  | (Resolved _, (c', response')) =>
      docs c' = docs c
      /\ exists user n stored,
          In user (docs c)
          /\ Js.lookup "email" user = Js.VStr address
          /\ Js.lookup "_id" user = Js.VOid n
          /\ Js.lookup "password" user = Js.VStr stored
          /\ compare bcrypt secret stored = true
          /\ response'
             = AuthLogin.mkHttpResponse
                 (AuthService.mkCookie "Authentication"
                    (sign jwtService (mkTokenpayload (toHexString n))) true
                    :: AuthLogin.cookies response)
                 (Some (Js.VObj user))
  | (Rejected e, (c', response')) =>
      docs c' = docs c /\ response' = response
  end.
Proof.
  unfold AuthLogin.postLogin, AuthLogin.LocalAuthGuard.
  destruct ((address =? "") || (secret =? ""))%bool;
    [unfold throw; now split |].
  pose proof (AuthFacts.verifyUser_outcome bcrypt address secret c)
    as Hvalidate.
  unfold LocalStrategy.validate, try_catch, throw.
  destruct (UsersService.verifyUser bcrypt address secret c)
    as [[user | e] c']; [| now split].
  destruct Hvalidate as (Hin & Hemail & (stored & Hpw & Hcmp) & Hdocs).
  unfold AuthLogin.login, AuthService.login, await, lift,
    AuthService.toHexString.
  destruct (Js.lookup "_id" user) eqn:Hid; unfold throw, resolve;
    try (split; [exact Hdocs | now destruct response]).
  split; [exact Hdocs |]. exists user, n, stored. repeat split; auto.
Qed.

(** With the sample user: the right password sets the cookie and sends
    the user, a wrong one leaves the response empty. *)
Example login_route_samples :
  AuthLogin.postLogin sampleBcrypt sampleJwt "a@x.com" "pw123!"
    (sampleUsers, AuthLogin.mkHttpResponse [] None)
  = (Resolved tt,
     (sampleUsers,
      AuthLogin.mkHttpResponse
        [AuthService.mkCookie "Authentication" "jwt.0x0" true]
        (Some (Js.VObj (hd [] (docs sampleUsers))))))
  /\ snd (AuthLogin.postLogin sampleBcrypt sampleJwt "a@x.com" "guess"
            (sampleUsers, AuthLogin.mkHttpResponse [] None))
     = (sampleUsers, AuthLogin.mkHttpResponse [] None).
Proof. split; reflexivity. Qed.

Lemma castFilter_id_inv s f :
  castFilter [("_id", Js.VStr s)] = inr f ->
  exists n, castObjectId s = Some n /\ f = [("_id", Js.VOid n)].
Proof.
  cbn [castFilter]. rewrite String.eqb_refl.
  destruct (castObjectId s) as [n |]; [| discriminate].
  intros [= <-]. eauto.
Qed.

(** X13. The handler of ['authenticate'] resolves only when the message
    carries a string that verifies as a token, and then with the stored
    user whose id is the one named in the token's payload; and it never
    changes the stored users, whatever it answers. *)
Theorem authenticate_sound jwtService data c :
  match AuthController.handleAuthenticate jwtService data c with
  | (Resolved v, c') =>
      docs c' = docs c
      /\ exists t payload n user,
          JwtStrategy.jwtFromRequest (Js.VObj data) = inr (Js.VStr t)
          /\ verify jwtService t = Some payload
          /\ castObjectId (userId payload) = Some n
          /\ In user (docs c)
          /\ Js.lookup "_id" user = Js.VOid n
          /\ v = Js.VObj user
  | (Rejected e, c') => docs c' = docs c
  end.
Proof.
  unfold AuthController.handleAuthenticate, AuthController.canActivate,
    AuthController.super_canActivate, await, lift, throw, resolve.
  destruct (JwtStrategy.jwtFromRequest (Js.VObj data)) as [e | token];
    [reflexivity |].
  destruct token as [| | b | z | t | n | fields]; try reflexivity.
  destruct (verify jwtService t) as [payload |] eqn:Hverify;
    [| reflexivity].
  unfold JwtStrategy.validate, UsersService.getUser. cbn [_id].
  destruct (AbstractRepository.findOne [("_id", Js.VStr (userId payload))] c)
    as [[user | e] c'] eqn:Hfind;
    destruct (AuthFacts.findOne_resolves _ _ _ _ Hfind) as [Hdocs Hres];
    cbn [negb]; [| exact Hdocs].
  split; [exact Hdocs |].
  destruct (Hres user eq_refl) as (f & Hcast & Hin & Hmatch).
  apply castFilter_id_inv in Hcast as (n & Hn & ->).
  rewrite MongooseFacts.matches_id in Hmatch.
  apply UpdateFacts.value_eqb_oid_l in Hmatch.
  exists t, payload, n, user. repeat split; auto.
  unfold AuthController.authenticate. apply JsFacts.lookup_assign_same.
Qed.

(** X14. How ['authenticate'] fails.  A message whose credential is a string
    that does not verify, or is not a string at all, is an
    UnauthorizedException, decided without a round trip to the store.  A
    token that verifies but names a user who is not stored is the
    repository's NotFoundException. *)
Theorem authenticate_failures jwtService data c :
  (forall t,
      JwtStrategy.jwtFromRequest (Js.VObj data) = inr (Js.VStr t) ->
      verify jwtService t = None ->
      AuthController.handleAuthenticate jwtService data c
      = (Rejected unauthorized, c))
  /\ (forall v,
         JwtStrategy.jwtFromRequest (Js.VObj data) = inr v ->
         (forall t, v <> Js.VStr t) ->
         AuthController.handleAuthenticate jwtService data c
         = (Rejected unauthorized, c))
  /\ (forall t payload n,
         JwtStrategy.jwtFromRequest (Js.VObj data) = inr (Js.VStr t) ->
         verify jwtService t = Some payload ->
         castObjectId (userId payload) = Some n ->
         reachable c ->
         List.filter (matches [("_id", Js.VOid n)]) (docs c) = [] ->
         AuthController.handleAuthenticate jwtService data c
         = (Rejected notFound, c)).
Proof.
  unfold AuthController.handleAuthenticate, AuthController.canActivate,
    AuthController.super_canActivate, await, lift, throw, resolve.
  split; [| split].
  - intros t -> Hverify. now rewrite Hverify.
  - intros v -> Hv. destruct v; try reflexivity. now destruct (Hv s).
  - intros t payload n -> Hverify Hn Hr Hnone. rewrite Hverify.
    unfold JwtStrategy.validate, UsersService.getUser. cbn [_id].
    rewrite (RepositoryFacts.findOne_cast _ _ c Hr
               (ReservationFacts.castFilter_id _ _ Hn)).
    now rewrite (ListFacts.filter_nil_find _ _ Hnone).
Qed.

Lemma authenticate_failures_witness :
  AuthController.handleAuthenticate sampleJwt
    [("Authentication", Js.VStr "forged")] sampleUsers
  = (Rejected unauthorized, sampleUsers)
  /\ AuthController.handleAuthenticate sampleJwt
       [("headers", Js.VObj [])] sampleUsers
     = (Rejected unauthorized, sampleUsers)
  /\ AuthController.handleAuthenticate sampleJwt
       [("Authentication", Js.VStr "jwt.0x5")] sampleUsers
     = (Rejected notFound, sampleUsers).
Proof.
  split; [| split].
  - destruct (authenticate_failures sampleJwt
                [("Authentication", Js.VStr "forged")] sampleUsers)
      as (H & _). exact (H "forged" eq_refl eq_refl).
  - destruct (authenticate_failures sampleJwt
                [("headers", Js.VObj [])] sampleUsers) as (_ & H & _).
    apply (H Js.VUndefined eq_refl). discriminate.
  - destruct (authenticate_failures sampleJwt
                [("Authentication", Js.VStr "jwt.0x5")] sampleUsers)
      as (_ & _ & H).
    exact (H "jwt.0x5" (mkTokenpayload "0x5") 5%N
             eq_refl eq_refl eq_refl eq_refl eq_refl).
Defined.

(** X15. The extractor of the JWT strategy reads a request object in the order
    of the common guard and finds the same credential, with one
    difference: where there is no credential in the cookie or in the
    request field and the request has no [headers], the guard finds
    nothing and the strategy throws a TypeError.  So for every message
    the guard sends, the strategy extracts the guard's credential. *)
Theorem extractors_agree request sent :
  let context := JwtAuthGuard.mkContext request sent in
  JwtStrategy.jwtFromRequest (Js.VObj request)
  = (if Js.truthy (Js.or (JwtAuthGuard.cookieAuthentication context)
                         (JwtAuthGuard.requestAuthentication context))
     then inr (JwtAuthGuard.jwt context)
     else match Js.lookup "headers" request with
          | Js.VUndefined | Js.VNull =>
              inl (JsError "TypeError"
                           "Cannot read properties of undefined")
          | _ => inr (JwtAuthGuard.jwt context)
          end)
  /\ (Js.truthy (JwtAuthGuard.jwt context) = true ->
      JwtStrategy.jwtFromRequest
        (Js.VObj [("Authentication", JwtAuthGuard.jwt context)])
      = inr (JwtAuthGuard.jwt context)).
Proof.
  intros context. split.
  - unfold JwtStrategy.jwtFromRequest, JwtAuthGuard.jwt,
      JwtAuthGuard.cookieAuthentication, JwtAuthGuard.requestAuthentication,
      JwtAuthGuard.headerAuthentication, JwtAuthGuard.getRequest, Js.or.
    cbn [JwtAuthGuard.request context Js.opt_member Js.member].
    destruct (Js.truthy (Js.opt_member (Js.lookup "cookies" request)
                                       "Authentication")) eqn:Hc;
      cbv beta iota; rewrite ?Hc; [reflexivity |].
    destruct (Js.truthy (Js.lookup "Authentication" request)) eqn:Hf;
      cbv beta iota; rewrite ?Hf; [reflexivity |].
    unfold Js.get. now destruct (Js.lookup "headers" request).
  - intros Hjwt. unfold JwtStrategy.jwtFromRequest.
    cbn [Js.opt_member Js.member Js.lookup String.eqb Ascii.eqb Bool.eqb
         Js.truthy].
    now rewrite Hjwt.
Qed.

Lemma extractors_agree_witness :
  JwtStrategy.jwtFromRequest
    (Js.VObj [("Authentication",
               JwtAuthGuard.jwt (JwtAuthGuard.mkContext requestWithAll []))])
  = inr (Js.VStr "from-cookie")
  /\ JwtStrategy.jwtFromRequest (Js.VObj [("cookies", Js.VObj [])])
     = inl (JsError "TypeError" "Cannot read properties of undefined").
Proof.
  split.
  - exact (proj2 (extractors_agree requestWithAll []) eq_refl).
  - exact (proj1 (extractors_agree [("cookies", Js.VObj [])] [])).
Defined.

End AuthRouteFacts.

(** ** The guard and the guarded routes *)

Module RouteFacts.

Import JwtAuthGuard GuardFacts Samples ReservationSamples.

Abbreviation forbidden := (ForbiddenException "Forbidden resource").

Lemma tap_setUser_other (o : Rx.Observable Js.value) context k :
  k <> "user" ->
  Js.lookup k (request (snd (Rx.tap setUser o context)))
  = Js.lookup k (request context).
Proof.
  intros Hk. revert context.
  induction o as [res rest IH | |]; intros context; auto.
  cbn [Rx.tap]. specialize (IH (setUser res context)).
  destruct (Rx.tap setUser rest (setUser res context)) as [rest' context'].
  cbn [snd] in *. rewrite IH. cbn [setUser request].
  now apply JsFacts.lookup_assign_other.
Qed.

(** X16. Whatever the authority answers, the guard changes no property of the
    request but [user]: cookies, headers, body and the rest are what
    they were. *)
Theorem guard_touches_only_user authClient context k :
  k <> "user" ->
  Js.lookup k (request (snd (canActivate authClient context)))
  = Js.lookup k (request context).
Proof.
  intros Hk. destruct (Js.truthy (jwt context)) eqn:Hjwt.
  - rewrite (canActivate_delegates authClient context Hjwt). cbn [snd].
    now rewrite tap_setUser_other.
  - unfold canActivate. now rewrite Hjwt.
Qed.

Lemma guard_touches_only_user_witness :
  Js.lookup "cookies"
    (request (snd (canActivate (answering Js.VNull)
                     (mkContext requestWithCookie []))))
  = Js.VObj [("Authentication", Js.VStr "token")].
Proof.
  rewrite (guard_touches_only_user (answering Js.VNull)
             (mkContext requestWithCookie []) "cookies"); [reflexivity |].
  discriminate.
Defined.

(** What the framework reads off the guard's pipeline. *)
Lemma lastValueFrom_pipeline (o : Rx.Observable Js.value) last :
  Rx.lastValueFrom
    (Rx.catchError (fun _ => Rx.of_ false) (Rx.map (fun _ => true) o)) last
  = if Rx.succeeds o
    then match o, last with
         | Rx.Complete, Some b => Rx.Last b
         | Rx.Complete, None => Rx.Empty
         | _, _ => Rx.Last true
         end
    else Rx.Last false.
Proof.
  revert last. induction o as [res rest IH | |]; intros last.
  - cbn [Rx.map Rx.catchError Rx.lastValueFrom Rx.succeeds].
    rewrite IH. destruct (Rx.succeeds rest); [| reflexivity].
    now destruct rest.
  - now destruct last.
  - reflexivity.
Qed.

(** X17. The decision of the guard on a request with a credential: [false]
    whenever the authority's answer ends in an error, also after values;
    [true] when it ends well after at least one value; and when the
    answer ends well without any value there is no decision.  The
    guard's own observable never fails. *)
Theorem guard_decision authClient context :
  Js.truthy (jwt context) = true ->
  decision (fst (canActivate authClient context))
  = if Rx.succeeds (authClient "authenticate" (message context))
    then match authClient "authenticate" (message context) with
         | Rx.Complete => Rx.Empty
         | _ => Rx.Last true
         end
    else Rx.Last false.
Proof.
  intros Hjwt. rewrite (canActivate_delegates authClient context Hjwt).
  cbn [fst decision]. rewrite lastValueFrom_pipeline.
  now destruct (authClient "authenticate" (message context)).
Qed.

Lemma guard_decision_witness :
  decision (fst (canActivate
                   (fun _ _ => Rx.Next Js.VNull (Rx.Error Js.VNull))
                   (mkContext requestWithCookie []))) = Rx.Last false
  /\ decision (fst (canActivate (fun _ _ => Rx.Complete)
                      (mkContext requestWithCookie []))) = Rx.Empty
  /\ decision (fst (canActivate (answering Js.VNull)
                      (mkContext requestWithCookie []))) = Rx.Last true.
Proof.
  split; [| split].
  - exact (guard_decision (fun _ _ => Rx.Next Js.VNull (Rx.Error Js.VNull))
             (mkContext requestWithCookie []) eq_refl).
  - exact (guard_decision (fun _ _ => Rx.Complete)
             (mkContext requestWithCookie []) eq_refl).
  - exact (guard_decision (answering Js.VNull)
             (mkContext requestWithCookie []) eq_refl).
Defined.

(** When is the guard's decision [false]. *)
Lemma decision_false authClient context :
  Js.truthy (jwt context) = false
  \/ Rx.succeeds (authClient "authenticate" (message context)) = false ->
  decision (fst (canActivate authClient context)) = Rx.Last false.
Proof.
  destruct (Js.truthy (jwt context)) eqn:Hjwt.
  - intros [H | H]; [discriminate |].
    rewrite (canActivate_delegates authClient context Hjwt).
    cbn [fst decision]. now rewrite lastValueFrom_pipeline, H.
  - intros _. unfold canActivate. now rewrite Hjwt.
Qed.

Lemma UseGuards_refuses {A} authClient
      (handler : ExecutionContext -> Promise Mongoose.Collection A)
      context c :
  decision (fst (canActivate authClient context)) = Rx.Last false ->
  ReservationsController.UseGuards authClient handler (context, c)
  = (Rejected forbidden, (snd (canActivate authClient context), c)).
Proof.
  unfold ReservationsController.UseGuards.
  destruct (canActivate authClient context) as [activation context'].
  cbn [fst snd]. now intros ->.
Qed.

(** X18. A request without a credential, or one the authority does not answer
    for without error, gets a ForbiddenException from every route of the
    reservations controller, and the handler is not run: the stored
    reservations are untouched. *)
Theorem routes_refuse_without_identity authClient schema context c now dto
        id :
  Js.truthy (jwt context) = false
  \/ Rx.succeeds (authClient "authenticate" (message context)) = false ->
  let context' := snd (canActivate authClient context) in
  ReservationsController.create authClient schema now dto (context, c)
  = (Rejected forbidden, (context', c))
  /\ ReservationsController.findAll authClient (context, c)
     = (Rejected forbidden, (context', c))
  /\ ReservationsController.findOne authClient id (context, c)
     = (Rejected forbidden, (context', c))
  /\ ReservationsController.update authClient schema id dto (context, c)
     = (Rejected forbidden, (context', c))
  /\ ReservationsController.remove authClient id (context, c)
     = (Rejected forbidden, (context', c)).
Proof.
  intros H context'. apply decision_false in H.
  unfold ReservationsController.create, ReservationsController.findAll,
    ReservationsController.findOne, ReservationsController.update,
    ReservationsController.remove.
  repeat split; now apply UseGuards_refuses.
Qed.

Lemma routes_refuse_without_identity_witness :
  ReservationsController.remove refusing "0x0"
    (mkContext requestWithCookie [], sampleReservations)
  = (Rejected forbidden,
     (mkContext requestWithCookie
        [("authenticate",
          Js.VObj [("Authentication", Js.VStr "token")])],
      sampleReservations))
  /\ ReservationsController.create (answering Js.VNull)
       sampleReservationSchema (Js.VNum 70) sampleDto
       (mkContext requestWithNone [], sampleReservations)
     = (Rejected forbidden,
        (mkContext requestWithNone [], sampleReservations)).
Proof.
  split.
  - destruct (routes_refuse_without_identity refusing
                sampleReservationSchema
                (mkContext requestWithCookie []) sampleReservations
                Js.VNull [] "0x0" (or_intror eq_refl))
      as (_ & _ & _ & _ & H). exact H.
  - destruct (routes_refuse_without_identity (answering Js.VNull)
                sampleReservationSchema
                (mkContext requestWithNone []) sampleReservations
                (Js.VNum 70) sampleDto "" (or_introl eq_refl))
      as (H & _). exact H.
Defined.



End RouteFacts.

(** ** Reservations that are charged first *)

Module PaymentFacts.

Import Mongoose Samples ReservationSamples.

(** X20. A reservation is created only for a charge that went through.
    When the payments service answers with an error, or completes
    without an answer, nothing is stored.  When it answers with a charge,
    a reservation is handed to the model with the [id] of the charge as
    [invoiceId] (whatever the DTO carries under that name) and the
    caller's [userId]: when the schema accepts it, it is stored, last in
    the store, with both as their paths cast them and without the fields
    the schema does not have; when the schema refuses it, as it does for
    a required [invoiceId] and a charge without [id], the promise rejects
    with the ValidationError and nothing is stored.  When the answer is
    [null] or [undefined] the promise rejects with a TypeError and
    nothing is stored. *)
Theorem reservation_needs_charge payment_service schema now dto userId c :
  reachable c -> wellFormed c = true ->
  match payment_service "create_charge" (Js.lookup "charge" dto) with
  | Rx.Error err =>
      ReservationsServiceWithPayments.create payment_service schema now dto
        userId c = (Resolved (Rx.Error err), c)
  | Rx.Complete =>
      ReservationsServiceWithPayments.create payment_service schema now dto
        userId c = (Resolved Rx.Complete, c)
  | Rx.Next res Rx.Complete =>
      match res with
      | Js.VUndefined | Js.VNull =>
          ReservationsServiceWithPayments.create payment_service schema now
            dto userId c
          = (Resolved
               (Rx.of_ (Rejected
                          (JsError "TypeError"
                                   "Cannot read properties of undefined"))),
             c)
      | _ =>
          match validated schema
                  (Js.assign "_id" (Js.VOid (nextObjectId c))
                     (Js.assign "userId" userId
                        (Js.assign "invoiceId" (Js.member res "id")
                           (Js.assign "timestamp" now dto))))
          with
          | inr created =>
              exists c',
                ReservationsServiceWithPayments.create payment_service
                  schema now dto userId c
                = (Resolved (Rx.of_ (Resolved created)), c')
                /\ docs c' = (docs c ++ [created])%list
                /\ (forall p,
                       pathOf schema "invoiceId" = Some p ->
                       castTo p (Js.member res "id")
                              (Js.lookup "invoiceId" created))
                /\ (forall p,
                       pathOf schema "userId" = Some p ->
                       castTo p userId (Js.lookup "userId" created))
                /\ Js.lookup "_id" created = Js.VOid (nextObjectId c)
                /\ (forall k,
                       pathOf schema k = None ->
                       Js.lookup k created = Js.VUndefined)
          | inl e =>
              ReservationsServiceWithPayments.create payment_service schema
                now dto userId c
              = (Resolved (Rx.of_ (Rejected e)),
                 mkCollection (docs c) (N.succ (nextObjectId c))
                              (outages c))
          end
      end
  | _ => True
  end.
Proof.
  intros Hr Hwf. unfold ReservationsServiceWithPayments.create.
  destruct (payment_service "create_charge" (Js.lookup "charge" dto))
    as [res [| |] | |]; try exact I; try reflexivity.
  pose proof (RepositoryFacts.create_outcome schema
                (Js.assign "userId" userId
                   (Js.assign "invoiceId" (Js.member res "id")
                      (Js.assign "timestamp" now dto))) c Hr Hwf)
    as Hcreate.
  cbn [ReservationsServiceWithPayments.mapAsync].
  unfold await, lift.
  destruct res; cbn [Js.get Js.member throw resolve] in *; try reflexivity;
    (match type of Hcreate with
     | match ?h with _ => _ end => destruct h as [e | created]
     end;
     [ now rewrite Hcreate
     | destruct Hcreate as (-> & Hid & Hto & Hstrict);
       eexists; split; [reflexivity |]; split; [reflexivity |];
       split; [| split; [| split; [exact Hid | exact Hstrict]]];
       intros p Hp;
       [ specialize (Hto "invoiceId" p ltac:(discriminate) Hp);
         rewrite JsFacts.lookup_assign_other in Hto by discriminate;
         now rewrite JsFacts.lookup_assign_same in Hto
       | specialize (Hto "userId" p ltac:(discriminate) Hp);
         now rewrite JsFacts.lookup_assign_same in Hto ] ]).
Qed.

Lemma reservation_needs_charge_witness :
  ReservationsServiceWithPayments.create refusing sampleReservationSchema
    (Js.VNum 70) sampleDto (Js.VStr "0x7") sampleReservations
  = (Resolved (Rx.Error (Js.VStr "Unauthorized")), sampleReservations)
  /\ (exists created c',
         ReservationsServiceWithPayments.create
           (answering (Js.VObj [("id", Js.VStr "pi_1")]))
           sampleReservationSchema (Js.VNum 70)
           (sampleDto ++ [("charge", Js.VObj [("amount", Js.VNum 5)])])%list
           (Js.VStr "0x7") sampleReservations
         = (Resolved (Rx.of_ (Resolved created)), c')
         /\ Js.lookup "invoiceId" created = Js.VStr "pi_1"
         /\ Js.lookup "charge" created = Js.VUndefined)
  /\ fst (ReservationsServiceWithPayments.create
            (answering (Js.VObj [])) sampleReservationSchema (Js.VNum 70)
            (tl (tl sampleDto)) (Js.VStr "0x7") sampleReservations)
     = Resolved (Rx.of_ (Rejected (JsError "ValidationError"
                                           "Validation failed"))).
Proof.
  split; [| split].
  - exact (reservation_needs_charge refusing sampleReservationSchema
             (Js.VNum 70) sampleDto (Js.VStr "0x7") sampleReservations
             eq_refl eq_refl).
  - pose proof (reservation_needs_charge
                  (answering (Js.VObj [("id", Js.VStr "pi_1")]))
                  sampleReservationSchema (Js.VNum 70)
                  (sampleDto
                     ++ [("charge", Js.VObj [("amount", Js.VNum 5)])])%list
                  (Js.VStr "0x7") sampleReservations eq_refl eq_refl) as H.
    cbv beta iota delta [answering Rx.of_] in H.
    change (validated _ _)
      with (@inr Exception Js.object
              [("startDate", Js.VNum 500); ("endDate", Js.VNum 600);
               ("placeId", Js.VStr "p3"); ("invoiceId", Js.VStr "pi_1");
               ("timestamp", Js.VNum 70); ("userId", Js.VStr "0x7");
               ("_id", Js.VOid 2)]) in H.
    destruct H as (c' & Hcreate & _).
    eexists _, c'. split; [exact Hcreate |]. split; reflexivity.
  - now rewrite (reservation_needs_charge (answering (Js.VObj []))
                   sampleReservationSchema (Js.VNum 70) (tl (tl sampleDto))
                   (Js.VStr "0x7") sampleReservations eq_refl eq_refl).
Defined.

End PaymentFacts.
